(** * multi_drag.cpp: the registry of draggable rectangles and its mouse handlers

    A shallow embedding of [SDLApp::DraggableObject], [SDLApp::ObjectManager]
    and the event dispatch of [SDLApp::handleEvents], followed by the
    properties of the registry: clamping, drag flags, hit order, growth.

    Window and renderer handles, drawing and the frame delay are outside the
    model: they never read or write the registry's drag state. *)

From Stdlib Require Import Ascii String DecimalString.
From Stdlib Require Import ZArith List Bool Lia Permutation.
Import ListNotations.
Local Open Scope Z_scope.

(** ** Machine integers *)

(** [int] is 32 bits wide on every SDL2 target.  Values are kept in [Z]; the
    two operators the program applies to [int]s reduce their result to the
    two's complement range.  C++ leaves signed overflow undefined: where a
    property needs the exact sum or difference, it says that the result is
    representable. *)
Module Int.
Definition min_int : Z := -2147483648.
Definition max_int : Z := 2147483647.

Definition in_range (z : Z) : Prop := min_int <= z <= max_int.

Definition wrap (z : Z) : Z := (z + 2147483648) mod 4294967296 - 2147483648.

Definition add (a b : Z) : Z := wrap (a + b).
Definition sub (a b : Z) : Z := wrap (a - b).
End Int.

(** [static_cast<Uint8>]. *)
Definition Uint8 (z : Z) : Z := z mod 256.

(** ** SDL's plain structs *)

Module SDL_Rect.
Record t : Type := make { x : Z; y : Z; w : Z; h : Z }.
End SDL_Rect.

Module SDL_Color.
Record t : Type := make { r : Z; g : Z; b : Z; a : Z }.
End SDL_Color.

Module SDL_MouseButtonEvent.
Record t : Type := make { button : Z; x : Z; y : Z }.
End SDL_MouseButtonEvent.

Module SDL_MouseMotionEvent.
Record t : Type := make { x : Z; y : Z }.
End SDL_MouseMotionEvent.

Definition SDL_BUTTON_LEFT : Z := 1.
Definition SDLK_ESCAPE : Z := 27.

(** The events [handleEvents] switches on; every other event type falls
    through the switch. *)
Inductive SDL_Event : Type :=
| SDL_QUIT
| SDL_MOUSEBUTTONDOWN (button : SDL_MouseButtonEvent.t)
| SDL_MOUSEBUTTONUP (button : SDL_MouseButtonEvent.t)
| SDL_MOUSEMOTION (motion : SDL_MouseMotionEvent.t)
| SDL_KEYDOWN (sym : Z)
| SDL_OTHEREVENT.

(** ** The random source *)

(** [std::mt19937] with [std::uniform_int_distribution<int>(0, 255)] comes
    from the C++ library.  A generator is represented by the sequence of
    values that [colorDist(rng)] is going to return and by how many of them
    were consumed; [std::random_device] picks the sequence. *)
Record mt19937 : Type := { outputs : nat -> Z; consumed : nat }.

Definition colorDist (rng : mt19937) : Z * mt19937 :=
  (outputs rng (consumed rng),
   {| outputs := outputs rng; consumed := S (consumed rng) |}).

(** ** Constants of SDLApp *)

Definition WINDOW_WIDTH : Z := 800.
Definition WINDOW_HEIGHT : Z := 600.

(** [std::clamp(v, lo, hi)]. *)
Definition clamp (v lo hi : Z) : Z :=
  if v <? lo then lo else if hi <? v then hi else v.

(** ** DraggableObject *)

Record DraggableObject : Type := {
  rect : SDL_Rect.t;
  color : SDL_Color.t;
  isDragging : bool;
  dragOffsetX : Z;
  dragOffsetY : Z
}.

(** The constructor [DraggableObject(x, y, w, h, c)]. *)
Definition DraggableObject_new (x y w h : Z) (c : SDL_Color.t) : DraggableObject :=
  {| rect := SDL_Rect.make x y w h;
     color := c;
     isDragging := false;
     dragOffsetX := 0;
     dragOffsetY := 0 |}.

Definition containsPoint (o : DraggableObject) (x y : Z) : bool :=
  (x >=? SDL_Rect.x (rect o))
  && (x <? Int.add (SDL_Rect.x (rect o)) (SDL_Rect.w (rect o)))
  && (y >=? SDL_Rect.y (rect o))
  && (y <? Int.add (SDL_Rect.y (rect o)) (SDL_Rect.h (rect o))).

Definition drag (o : DraggableObject) (mouseX mouseY : Z) : DraggableObject :=
  if isDragging o then
    let x1 := Int.sub mouseX (dragOffsetX o) in
    let y1 := Int.sub mouseY (dragOffsetY o) in
    let x2 := clamp x1 0 (Int.sub WINDOW_WIDTH (SDL_Rect.w (rect o))) in
    let y2 := clamp y1 0 (Int.sub WINDOW_HEIGHT (SDL_Rect.h (rect o))) in
    {| rect := SDL_Rect.make x2 y2 (SDL_Rect.w (rect o)) (SDL_Rect.h (rect o));
       color := color o;
       isDragging := isDragging o;
       dragOffsetX := dragOffsetX o;
       dragOffsetY := dragOffsetY o |}
  else o.

(** ** ObjectManager *)

Record ObjectManager : Type := {
  objects : list DraggableObject;
  rng : mt19937
}.

Definition generateRandomColor (g : mt19937) : SDL_Color.t * mt19937 :=
  let (c1, g1) := colorDist g in
  let (c2, g2) := colorDist g1 in
  let (c3, g3) := colorDist g2 in
  (SDL_Color.make (Uint8 c1) (Uint8 c2) (Uint8 c3) 255, g3).

Definition addObject (m : ObjectManager) (x y : Z) : ObjectManager :=
  let (c, g) := generateRandomColor (rng m) in
  {| objects := objects m ++ [DraggableObject_new x y 80 80 c]; rng := g |}.

(** The constructor: a generator seeded by [std::random_device], then three
    objects. *)
Definition ObjectManager_new (seeded : mt19937) : ObjectManager :=
  let m0 := {| objects := []; rng := seeded |} in
  let m1 := addObject m0 100 100 in
  let m2 := addObject m1 300 200 in
  addObject m2 500 300.

(** The three assignments to [*it] at the top of the hit branch of
    [handleMouseDown]. *)
Definition grab (it : DraggableObject) (mouseX mouseY : Z) : DraggableObject :=
  {| rect := rect it;
     color := color it;
     isDragging := true;
     dragOffsetX := Int.sub mouseX (SDL_Rect.x (rect it));
     dragOffsetY := Int.sub mouseY (SDL_Rect.y (rect it)) |}.

(** The [for] loop of [handleMouseDown].  [upto_rend] is what the reverse
    iterator has still to visit, topmost first; [passed] are the objects it
    went over, in vector order.  On a hit the element is erased from its
    place and its updated copy pushed back, and the handler returns. *)
Fixpoint handleMouseDown_loop (mouseX mouseY : Z)
    (upto_rend passed : list DraggableObject) : option (list DraggableObject) :=
  match upto_rend with
  | [] => None
  | it :: below =>
      if containsPoint it mouseX mouseY then
        let obj := grab it mouseX mouseY in
        Some ((rev below ++ passed) ++ [obj])
      else handleMouseDown_loop mouseX mouseY below (it :: passed)
  end.

Definition handleMouseDown (m : ObjectManager) (event : SDL_MouseButtonEvent.t)
    : ObjectManager :=
  let mouseX := SDL_MouseButtonEvent.x event in
  let mouseY := SDL_MouseButtonEvent.y event in
  if SDL_MouseButtonEvent.button event =? SDL_BUTTON_LEFT then
    match handleMouseDown_loop mouseX mouseY (rev (objects m)) [] with
    | Some objs => {| objects := objs; rng := rng m |}
    | None => addObject m mouseX mouseY
    end
  else m.

(** [obj.isDragging = false] of [handleMouseUp]. *)
Definition release (obj : DraggableObject) : DraggableObject :=
  {| rect := rect obj;
     color := color obj;
     isDragging := false;
     dragOffsetX := dragOffsetX obj;
     dragOffsetY := dragOffsetY obj |}.

Definition handleMouseUp (m : ObjectManager) (event : SDL_MouseButtonEvent.t)
    : ObjectManager :=
  if SDL_MouseButtonEvent.button event =? SDL_BUTTON_LEFT then
    {| objects := map release (objects m); rng := rng m |}
  else m.

Definition handleMouseMotion (m : ObjectManager) (event : SDL_MouseMotionEvent.t)
    : ObjectManager :=
  {| objects :=
       map (fun obj => drag obj (SDL_MouseMotionEvent.x event)
                                (SDL_MouseMotionEvent.y event)) (objects m);
     rng := rng m |}.

(** ** SDLApp *)

Record SDLApp : Type := {
  objectManager : ObjectManager;
  running : bool
}.

Definition SDLApp_new (seeded : mt19937) : SDLApp :=
  {| objectManager := ObjectManager_new seeded; running := true |}.

(** One turn of the [switch] in [handleEvents]. *)
Definition handleEvent (app : SDLApp) (event : SDL_Event) : SDLApp :=
  match event with
  | SDL_QUIT => {| objectManager := objectManager app; running := false |}
  | SDL_MOUSEBUTTONDOWN button =>
      {| objectManager := handleMouseDown (objectManager app) button;
         running := running app |}
  | SDL_MOUSEBUTTONUP button =>
      {| objectManager := handleMouseUp (objectManager app) button;
         running := running app |}
  | SDL_MOUSEMOTION motion =>
      {| objectManager := handleMouseMotion (objectManager app) motion;
         running := running app |}
  | SDL_KEYDOWN sym =>
      if sym =? SDLK_ESCAPE
      then {| objectManager := objectManager app; running := false |}
      else app
  | SDL_OTHEREVENT => app
  end.

(** [handleEvents] drains the queue that [SDL_PollEvent] delivers. *)
Definition handleEvents (app : SDLApp) (queue : list SDL_Event) : SDLApp :=
  fold_left handleEvent queue app.

(** [run]: one queue per frame, as long as [running] holds. *)
Fixpoint run (app : SDLApp) (frames : list (list SDL_Event)) : SDLApp :=
  match frames with
  | [] => app
  | queue :: later =>
      if running app then run (handleEvents app queue) later else app
  end.

(** ** The registry operations as the specification names them *)

(** The source inlines the hit test and the start of a drag in
    [handleMouseDown]; the two definitions below follow the specification's
    wording, with exact integer arithmetic, and are compared with the loop
    further down. *)

(** Half-open containment: [x] in [[rect.x, rect.x + w)], same for [y]. *)
Definition in_bounds (rc : SDL_Rect.t) (pointX pointY : Z) : bool :=
  (SDL_Rect.x rc <=? pointX) && (pointX <? SDL_Rect.x rc + SDL_Rect.w rc)
  && (SDL_Rect.y rc <=? pointY) && (pointY <? SDL_Rect.y rc + SDL_Rect.h rc).

(** Scan of the indices below [n], from [n - 1] down to [0]. *)
Fixpoint hitTest_below (objs : list DraggableObject) (pointX pointY : Z)
    (n : nat) : option nat :=
  match n with
  | O => None
  | S i =>
      match nth_error objs i with
      | Some o =>
          if in_bounds (rect o) pointX pointY then Some i
          else hitTest_below objs pointX pointY i
      | None => hitTest_below objs pointX pointY i
      end
  end.

Definition hitTest (objs : list DraggableObject) (pointX pointY : Z) : option nat :=
  hitTest_below objs pointX pointY (length objs).

(** The object as [beginDrag] leaves it. *)
Definition dragged (o : DraggableObject) (mouseX mouseY : Z) : DraggableObject :=
  {| rect := rect o;
     color := color o;
     isDragging := true;
     dragOffsetX := mouseX - SDL_Rect.x (rect o);
     dragOffsetY := mouseY - SDL_Rect.y (rect o) |}.

Definition beginDrag (objs : list DraggableObject) (index : nat)
    (mouseX mouseY : Z) : list DraggableObject :=
  match nth_error objs index with
  | Some o => (firstn index objs ++ skipn (S index) objs) ++ [dragged o mouseX mouseY]
  | None => objs
  end.

(** ** Predicates of the properties *)

(** The rectangle lies fully inside the canvas. *)
Definition inside_canvas (o : DraggableObject) : Prop :=
  0 <= SDL_Rect.x (rect o) <= WINDOW_WIDTH - SDL_Rect.w (rect o)
  /\ 0 <= SDL_Rect.y (rect o) <= WINDOW_HEIGHT - SDL_Rect.h (rect o).

(** The fields of the rectangle are [int]s and so are its right and bottom
    edges: [rect.x + rect.w] and [rect.y + rect.h] do not overflow. *)
Definition fits_int (o : DraggableObject) : Prop :=
  Int.in_range (SDL_Rect.x (rect o)) /\ Int.in_range (SDL_Rect.y (rect o))
  /\ Int.in_range (SDL_Rect.w (rect o)) /\ Int.in_range (SDL_Rect.h (rect o))
  /\ Int.in_range (SDL_Rect.x (rect o) + SDL_Rect.w (rect o))
  /\ Int.in_range (SDL_Rect.y (rect o) + SDL_Rect.h (rect o)).

Definition size80 (o : DraggableObject) : Prop :=
  SDL_Rect.w (rect o) = 80 /\ SDL_Rect.h (rect o) = 80.

(** Width and height of an object. *)
Definition extent (o : DraggableObject) : Z * Z :=
  (SDL_Rect.w (rect o), SDL_Rect.h (rect o)).

(** Number of objects whose [isDragging] is set. *)
Definition dragging_count (objs : list DraggableObject) : nat :=
  length (filter isDragging objs).

Definition is_primary_press (ev : SDL_Event) : bool :=
  match ev with
  | SDL_MOUSEBUTTONDOWN button =>
      SDL_MouseButtonEvent.button button =? SDL_BUTTON_LEFT
  | _ => false
  end.

(** No primary press arrives while the primary button is held; [held] is
    the state of the button before [queue]. *)
Fixpoint no_press_while_held (held : bool) (queue : list SDL_Event) : bool :=
  match queue with
  | [] => true
  | SDL_MOUSEBUTTONDOWN button :: later =>
      if SDL_MouseButtonEvent.button button =? SDL_BUTTON_LEFT
      then negb held && no_press_while_held true later
      else no_press_while_held held later
  | SDL_MOUSEBUTTONUP button :: later =>
      if SDL_MouseButtonEvent.button button =? SDL_BUTTON_LEFT
      then no_press_while_held false later
      else no_press_while_held held later
  | _ :: later => no_press_while_held held later
  end.

(** The flags against the state of the primary button: none is set while
    it is up, at most one while it is held. *)
Definition flags_agree (held : bool) (objs : list DraggableObject) : Prop :=
  if held then (dragging_count objs <= 1)%nat else dragging_count objs = 0%nat.

(** A press inside the window. *)
Definition in_window (ev : SDL_Event) : Prop :=
  match ev with
  | SDL_MOUSEBUTTONDOWN button =>
      0 <= SDL_MouseButtonEvent.x button < WINDOW_WIDTH
      /\ 0 <= SDL_MouseButtonEvent.y button < WINDOW_HEIGHT
  | _ => True
  end.

(** What one motion event does to one object, as the specification of
    [updateDrag] has it. *)
Definition moved_by (motion : SDL_MouseMotionEvent.t)
    (before after : DraggableObject) : Prop :=
  if isDragging before then
    SDL_Rect.x (rect after)
      = clamp (Int.sub (SDL_MouseMotionEvent.x motion) (dragOffsetX before))
              0 (WINDOW_WIDTH - SDL_Rect.w (rect before))
    /\ SDL_Rect.y (rect after)
      = clamp (Int.sub (SDL_MouseMotionEvent.y motion) (dragOffsetY before))
              0 (WINDOW_HEIGHT - SDL_Rect.h (rect before))
    /\ inside_canvas after
    /\ extent after = extent before
    /\ color after = color before
    /\ isDragging after = true
    /\ dragOffsetX after = dragOffsetX before
    /\ dragOffsetY after = dragOffsetY before
  else after = before.

(** ** Sample inputs *)

Definition sample_rng : mt19937 :=
  {| outputs := fun n => (Z.of_nat n * 37 + 5) mod 256; consumed := 0 |}.

Definition press (button x y : Z) : SDL_Event :=
  SDL_MOUSEBUTTONDOWN (SDL_MouseButtonEvent.make button x y).

Definition lift (button x y : Z) : SDL_Event :=
  SDL_MOUSEBUTTONUP (SDL_MouseButtonEvent.make button x y).

Definition move (x y : Z) : SDL_Event :=
  SDL_MOUSEMOTION (SDL_MouseMotionEvent.make x y).


(** The registry after a queue of events, from a fresh application. *)
Definition registry_after (seeded : mt19937) (queue : list SDL_Event)
    : list DraggableObject :=
  objects (objectManager (handleEvents (SDLApp_new seeded) queue)).

(** ** Drawing, the frame loop and [main] *)

(** The calls the programs make that act on the video subsystem, the
    renderer or the clock, in the order they are made.  [SDL_PollEvent] and
    [SDL_GetError] only read: what they return is an input of the model
    (the event queues, the error text). *)
Inductive SDL_Call : Type :=
| SDL_Init
| SDL_CreateWindow (title : string) (w h : Z)
| SDL_CreateRenderer
| SDL_SetRenderDrawColor (r g b a : Z)
| SDL_RenderClear
| SDL_RenderFillRect (rect : SDL_Rect.t)
| SDL_RenderDrawRect (rect : SDL_Rect.t)
| SDL_RenderPresent
| SDL_Delay (ms : Z)
| SDL_DestroyRenderer
| SDL_DestroyWindow
| SDL_Quit.

(** The body of the loop of [render]: fill, then the black border. *)
Definition render_object (obj : DraggableObject) : list SDL_Call :=
  [SDL_SetRenderDrawColor (SDL_Color.r (color obj)) (SDL_Color.g (color obj))
                          (SDL_Color.b (color obj)) (SDL_Color.a (color obj));
   SDL_RenderFillRect (rect obj);
   SDL_SetRenderDrawColor 0 0 0 255;
   SDL_RenderDrawRect (rect obj)].

Definition render (app : SDLApp) : list SDL_Call :=
  [SDL_SetRenderDrawColor 240 240 240 255; SDL_RenderClear]
  ++ flat_map render_object (objects (objectManager app))
  ++ [SDL_RenderPresent].

(** The calls of [run], frame by frame: events, drawing, the delay. *)
Fixpoint run_calls (app : SDLApp) (frames : list (list SDL_Event))
    : list SDL_Call :=
  match frames with
  | [] => []
  | queue :: later =>
      if running app then
        let app' := handleEvents app queue in
        render app' ++ [SDL_Delay 16] ++ run_calls app' later
      else []
  end.

(** What SDL answers while the application is set up: the result of
    [SDL_Init], whether a window and a renderer were obtained, and the text
    of [SDL_GetError]. *)
Record SDL_Setup : Type := {
  init_result : Z;
  window_created : bool;
  renderer_created : bool;
  error_text : string
}.

Definition newline : string := String (ascii_of_nat 10) EmptyString.

(** The constructor of [SDLApp]: the calls it makes, and the application or
    the message of the exception it throws.  The members are constructed
    before the body runs; when the body throws, the destructor of [SDLApp]
    does not run and the members are destroyed: a window that was obtained
    is released by [SDL_Deleter]. *)
Definition SDLApp_construct (sdl : SDL_Setup) (seeded : mt19937)
    : list SDL_Call * (string + SDLApp) :=
  let title := "Multiple Draggable Objects Demo"%string in
  if init_result sdl <? 0 then
    ([SDL_Init],
     inl ("SDL initialization failed: " ++ error_text sdl)%string)
  else if negb (window_created sdl) then
    ([SDL_Init; SDL_CreateWindow title WINDOW_WIDTH WINDOW_HEIGHT],
     inl ("Window creation failed: " ++ error_text sdl)%string)
  else if negb (renderer_created sdl) then
    ([SDL_Init; SDL_CreateWindow title WINDOW_WIDTH WINDOW_HEIGHT;
      SDL_CreateRenderer; SDL_DestroyWindow],
     inl ("Renderer creation failed: " ++ error_text sdl)%string)
  else
    ([SDL_Init; SDL_CreateWindow title WINDOW_WIDTH WINDOW_HEIGHT;
      SDL_CreateRenderer],
     inr (SDLApp_new seeded)).

(** What a process leaves behind when [main] returns. *)
Record Exit : Type := {
  exit_code : Z;
  calls : list SDL_Call;
  printed : string
}.

(** [main].  [frames] are the event queues of the frames observed; [None]
    when [run] has not returned within them.  On return the destructor of
    [SDLApp] calls [SDL_Quit], then the renderer and the window are
    released.  [printed] is what went to [std::cerr]. *)
Definition main (sdl : SDL_Setup) (seeded : mt19937)
    (frames : list (list SDL_Event)) : option Exit :=
  match SDLApp_construct sdl seeded with
  | (made, inl what) =>
      Some {| exit_code := 1;
              calls := made;
              printed := ("Error: " ++ what ++ newline)%string |}
  | (made, inr app) =>
      if running (run app frames) then None
      else Some {| exit_code := 0;
                   calls := made ++ run_calls app frames
                            ++ [SDL_Quit; SDL_DestroyRenderer; SDL_DestroyWindow];
                   printed := EmptyString |}
  end.

(** The rectangles of the [SDL_RenderFillRect] calls, in order. *)
Fixpoint filled (trace : list SDL_Call) : list SDL_Rect.t :=
  match trace with
  | [] => []
  | SDL_RenderFillRect rc :: later => rc :: filled later
  | _ :: later => filled later
  end.

(** The event ends the frame loop. *)
Definition stops (ev : SDL_Event) : bool :=
  match ev with
  | SDL_QUIT => true
  | SDL_KEYDOWN sym => sym =? SDLK_ESCAPE
  | _ => false
  end.

(** ** mouse_demo.c: one draggable rectangle *)

(** [printf("%d")] of an [int]. *)
Definition show_int (z : Z) : string := NilZero.string_of_int (Z.to_int z).

Module MouseDemo.
Definition WINDOW_WIDTH : Z := 800.
Definition WINDOW_HEIGHT : Z := 600.

Record MouseState : Type := {
  x : Z;
  y : Z;
  isDragging : bool;
  rect : SDL_Rect.t
}.

(** [initMouseState] writes [isDragging] and [rect]; [x] and [y] keep
    whatever the caller's storage held. *)
Definition initMouseState (state : MouseState) : MouseState :=
  {| x := x state;
     y := y state;
     isDragging := false;
     rect := SDL_Rect.make (Int.sub (Z.quot WINDOW_WIDTH 2) 50)
                           (Int.sub (Z.quot WINDOW_HEIGHT 2) 50)
                           100 100 |}.

(** The text of the three [printf]s. *)
Definition at_point (what : string) (px py : Z) : string :=
  (what ++ " at (" ++ show_int px ++ ", " ++ show_int py ++ ")" ++ newline)%string.

(** The four [if]s that keep the rectangle within the window, one axis. *)
Definition keep_low (v : Z) : Z := if v <? 0 then 0 else v.

Definition keep_high (v size limit : Z) : Z :=
  if Int.add v size >? limit then Int.sub limit size else v.

(** [handleMouseEvent]: the value returned, the state, the text printed. *)
Definition handleMouseEvent (event : SDL_Event) (state : MouseState)
    : bool * MouseState * string :=
  match event with
  | SDL_MOUSEBUTTONDOWN button =>
      if SDL_MouseButtonEvent.button button =? SDL_BUTTON_LEFT then
        let mouseX := SDL_MouseButtonEvent.x button in
        let mouseY := SDL_MouseButtonEvent.y button in
        if (mouseX >=? SDL_Rect.x (rect state))
           && (mouseX <=? Int.add (SDL_Rect.x (rect state)) (SDL_Rect.w (rect state)))
           && (mouseY >=? SDL_Rect.y (rect state))
           && (mouseY <=? Int.add (SDL_Rect.y (rect state)) (SDL_Rect.h (rect state)))
        then
          (true,
           {| x := Int.sub mouseX (SDL_Rect.x (rect state));
              y := Int.sub mouseY (SDL_Rect.y (rect state));
              isDragging := true;
              rect := rect state |},
           at_point "Started dragging" mouseX mouseY)
        else (true, state, at_point "Clicked" mouseX mouseY)
      else (true, state, EmptyString)
  | SDL_MOUSEBUTTONUP button =>
      if SDL_MouseButtonEvent.button button =? SDL_BUTTON_LEFT then
        if isDragging state then
          (true,
           {| x := x state; y := y state; isDragging := false;
              rect := rect state |},
           at_point "Stopped dragging" (SDL_MouseButtonEvent.x button)
                                       (SDL_MouseButtonEvent.y button))
        else (true, state, EmptyString)
      else (true, state, EmptyString)
  | SDL_MOUSEMOTION motion =>
      if isDragging state then
        let x0 := Int.sub (SDL_MouseMotionEvent.x motion) (x state) in
        let y0 := Int.sub (SDL_MouseMotionEvent.y motion) (y state) in
        let x1 := keep_low x0 in
        let y1 := keep_low y0 in
        let x2 := keep_high x1 (SDL_Rect.w (rect state)) WINDOW_WIDTH in
        let y2 := keep_high y1 (SDL_Rect.h (rect state)) WINDOW_HEIGHT in
        (true,
         {| x := x state; y := y state; isDragging := isDragging state;
            rect := SDL_Rect.make x2 y2 (SDL_Rect.w (rect state))
                                        (SDL_Rect.h (rect state)) |},
         EmptyString)
      else (true, state, EmptyString)
  | _ => (true, state, EmptyString)
  end.

(** What the loop of [main] carries: the flag, the rectangle's state, and
    the text printed so far. *)
Record Loop : Type := {
  running : bool;
  mouseState : MouseState;
  out : string
}.

(** One turn of the inner [while (SDL_PollEvent(&event))]. *)
Definition poll (l : Loop) (event : SDL_Event) : Loop :=
  let running' := match event with SDL_QUIT => false | _ => running l end in
  let '(_, state', text) := handleMouseEvent event (mouseState l) in
  {| running := running';
     mouseState := state';
     out := (out l ++ text)%string |}.

(** The drawing at the end of a frame. *)
Definition draw (state : MouseState) : list SDL_Call :=
  [SDL_SetRenderDrawColor 255 255 255 255; SDL_RenderClear;
   SDL_SetRenderDrawColor 0 0 255 255; SDL_RenderFillRect (rect state);
   SDL_RenderPresent].

(** The outer [while (running)], one event queue per frame, with the calls
    made. *)
Fixpoint frames_loop (l : Loop) (frames : list (list SDL_Event))
    : Loop * list SDL_Call :=
  match frames with
  | [] => (l, [])
  | queue :: later =>
      if running l then
        let l' := fold_left poll queue l in
        let (l'', drawn) := frames_loop l' later in
        (l'', draw (mouseState l') ++ drawn)
      else (l, [])
  end.

(** [main].  [garbage] is what the storage of [mouseState] holds before
    [initMouseState]; [None] when the loop has not ended within [frames].
    The [printed] text is what went to [stdout]. *)
Definition main (sdl : SDL_Setup) (garbage : MouseState)
    (frames : list (list SDL_Event)) : option Exit :=
  let title := "SDL Mouse Events Demo"%string in
  if init_result sdl <? 0 then
    Some {| exit_code := 1;
            calls := [SDL_Init];
            printed := ("SDL initialization failed: " ++ error_text sdl
                        ++ newline)%string |}
  else if negb (window_created sdl) then
    Some {| exit_code := 1;
            calls := [SDL_Init; SDL_CreateWindow title WINDOW_WIDTH WINDOW_HEIGHT;
                      SDL_Quit];
            printed := ("Window creation failed: " ++ error_text sdl
                        ++ newline)%string |}
  else if negb (renderer_created sdl) then
    Some {| exit_code := 1;
            calls := [SDL_Init; SDL_CreateWindow title WINDOW_WIDTH WINDOW_HEIGHT;
                      SDL_CreateRenderer; SDL_DestroyWindow; SDL_Quit];
            printed := ("Renderer creation failed: " ++ error_text sdl
                        ++ newline)%string |}
  else
    let start := {| running := true;
                    mouseState := initMouseState garbage;
                    out := EmptyString |} in
    let (l, drawn) := frames_loop start frames in
    if running l then None
    else Some {| exit_code := 0;
                 calls := [SDL_Init;
                           SDL_CreateWindow title WINDOW_WIDTH WINDOW_HEIGHT;
                           SDL_CreateRenderer]
                          ++ drawn
                          ++ [SDL_DestroyRenderer; SDL_DestroyWindow; SDL_Quit];
                 printed := out l |}.
End MouseDemo.

(** ** Predicates of the further properties *)

(** The colour of the [k]-th object created from a generator: the three
    draws at [3k], [3k+1], [3k+2] after those consumed before, as bytes. *)
Definition color_at (seeded : mt19937) (k : nat) : SDL_Color.t :=
  SDL_Color.make
    (Uint8 (outputs seeded (consumed seeded + 3 * k)))
    (Uint8 (outputs seeded (consumed seeded + 3 * k + 1)))
    (Uint8 (outputs seeded (consumed seeded + 3 * k + 2)))
    255.

(** A primary press at most 720 from the left and 520 from the top. *)
Definition in_margin (ev : SDL_Event) : Prop :=
  match ev with
  | SDL_MOUSEBUTTONDOWN button =>
      SDL_MouseButtonEvent.button button = SDL_BUTTON_LEFT ->
      0 <= SDL_MouseButtonEvent.x button <= WINDOW_WIDTH - 80
      /\ 0 <= SDL_MouseButtonEvent.y button <= WINDOW_HEIGHT - 80
  | _ => True
  end.

(** What of an object is drawn. *)
Definition appearance (o : DraggableObject) : SDL_Rect.t * SDL_Color.t :=
  (rect o, color o).

(** The event can change what [render] draws: a primary press, or a motion
    while some object has [isDragging] set. *)
Definition changes_picture (app : SDLApp) (ev : SDL_Event) : bool :=
  match ev with
  | SDL_MOUSEBUTTONDOWN button =>
      SDL_MouseButtonEvent.button button =? SDL_BUTTON_LEFT
  | SDL_MOUSEMOTION _ => existsb isDragging (objects (objectManager app))
  | _ => false
  end.

(** The generator of a registry agrees with the one it was seeded with:
    three draws were made per object, and the colours are those draws. *)
Definition draws_agree (seeded : mt19937) (m : ObjectManager) : Prop :=
  outputs (rng m) = outputs seeded
  /\ consumed (rng m) = (consumed seeded + 3 * length (objects m))%nat
  /\ Permutation (map color (objects m))
                 (map (color_at seeded) (seq 0 (length (objects m)))).

(** The setup of [SDLApp] or of [main] succeeds. *)
Definition setup_ok (sdl : SDL_Setup) : bool :=
  negb (init_result sdl <? 0) && window_created sdl && renderer_created sdl.

Definition sample_setup : SDL_Setup :=
  {| init_result := 0;
     window_created := true;
     renderer_created := true;
     error_text := EmptyString |}.

(** The number of frames presented in a trace. *)
Fixpoint presented (trace : list SDL_Call) : nat :=
  match trace with
  | [] => 0
  | SDL_RenderPresent :: later => S (presented later)
  | _ :: later => presented later
  end.

(** A setup in which the renderer is refused. *)
Definition no_renderer_setup : SDL_Setup :=
  {| init_result := 0;
     window_created := true;
     renderer_created := false;
     error_text := "no driver"%string |}.

(** ** Predicates of the properties of mouse_demo.c *)

(** The loop of [MouseDemo.main] as it starts. *)
Definition demo_start (garbage : MouseDemo.MouseState) : MouseDemo.Loop :=
  {| MouseDemo.running := true;
     MouseDemo.mouseState := MouseDemo.initMouseState garbage;
     MouseDemo.out := EmptyString |}.

(** The rectangle's state after a queue of events. *)
Definition demo_after (garbage : MouseDemo.MouseState) (queue : list SDL_Event)
    : MouseDemo.MouseState :=
  MouseDemo.mouseState (fold_left MouseDemo.poll queue (demo_start garbage)).

(** Presses and motions inside the 800x600 window. *)
Definition demo_in_window (ev : SDL_Event) : Prop :=
  match ev with
  | SDL_MOUSEBUTTONDOWN button =>
      0 <= SDL_MouseButtonEvent.x button < MouseDemo.WINDOW_WIDTH
      /\ 0 <= SDL_MouseButtonEvent.y button < MouseDemo.WINDOW_HEIGHT
  | SDL_MOUSEMOTION motion =>
      0 <= SDL_MouseMotionEvent.x motion < MouseDemo.WINDOW_WIDTH
      /\ 0 <= SDL_MouseMotionEvent.y motion < MouseDemo.WINDOW_HEIGHT
  | _ => True
  end.

(** The rectangle is 100x100 inside the window, and during a drag the grab
    point lies on it. *)
Definition demo_steady (s : MouseDemo.MouseState) : Prop :=
  SDL_Rect.w (MouseDemo.rect s) = 100 /\ SDL_Rect.h (MouseDemo.rect s) = 100
  /\ 0 <= SDL_Rect.x (MouseDemo.rect s) <= 700
  /\ 0 <= SDL_Rect.y (MouseDemo.rect s) <= 500
  /\ (MouseDemo.isDragging s = true ->
      0 <= MouseDemo.x s <= 100 /\ 0 <= MouseDemo.y s <= 100).

(** Two states that differ at most in the [x] and [y] of a state that is
    not dragging, which [handleMouseEvent] does not read. *)
Definition demo_alike (s1 s2 : MouseDemo.MouseState) : Prop :=
  MouseDemo.rect s1 = MouseDemo.rect s2
  /\ MouseDemo.isDragging s1 = MouseDemo.isDragging s2
  /\ (MouseDemo.isDragging s1 = true ->
      MouseDemo.x s1 = MouseDemo.x s2 /\ MouseDemo.y s1 = MouseDemo.y s2).

Definition demo_loops_alike (l1 l2 : MouseDemo.Loop) : Prop :=
  MouseDemo.running l1 = MouseDemo.running l2
  /\ MouseDemo.out l1 = MouseDemo.out l2
  /\ demo_alike (MouseDemo.mouseState l1) (MouseDemo.mouseState l2).

(** The only event that ends the loop of mouse_demo.c. *)
Definition demo_stops (ev : SDL_Event) : bool :=
  match ev with
  | SDL_QUIT => true
  | _ => false
  end.

(** The state in which [handleMouseEvent] finds the rectangle of a
    [DraggableObject], with the same drag flag and offset. *)
Definition demo_state_of (o : DraggableObject) : MouseDemo.MouseState :=
  {| MouseDemo.x := dragOffsetX o;
     MouseDemo.y := dragOffsetY o;
     MouseDemo.isDragging := isDragging o;
     MouseDemo.rect := rect o |}.

(** The state that [handleMouseEvent] leaves. *)
Definition demo_handled (ev : SDL_Event) (s : MouseDemo.MouseState)
    : MouseDemo.MouseState :=
  snd (fst (MouseDemo.handleMouseEvent ev s)).

Definition sample_garbage : MouseDemo.MouseState :=
  {| MouseDemo.x := 12345;
     MouseDemo.y := -77;
     MouseDemo.isDragging := true;
     MouseDemo.rect := SDL_Rect.make 9 8 7 6 |}.

(** The calls that give back what was obtained. *)
Definition is_release (c : SDL_Call) : bool :=
  match c with
  | SDL_DestroyRenderer | SDL_DestroyWindow | SDL_Quit => true
  | _ => false
  end.

(** What there is to give back after a setup, last obtained first. *)
Definition releases_due (sdl : SDL_Setup) : list SDL_Call :=
  if init_result sdl <? 0 then []
  else if negb (window_created sdl) then [SDL_Quit]
  else if negb (renderer_created sdl) then [SDL_DestroyWindow; SDL_Quit]
  else [SDL_DestroyRenderer; SDL_DestroyWindow; SDL_Quit].

(** ** Predicates of the invariant on dragged objects *)

Definition inside_canvasb (o : DraggableObject) : bool :=
  (0 <=? SDL_Rect.x (rect o))
  && (SDL_Rect.x (rect o) <=? WINDOW_WIDTH - SDL_Rect.w (rect o))
  && (0 <=? SDL_Rect.y (rect o))
  && (SDL_Rect.y (rect o) <=? WINDOW_HEIGHT - SDL_Rect.h (rect o)).

(** An object that is being dragged lies inside the canvas. *)
Definition settled (o : DraggableObject) : Prop :=
  isDragging o = true -> inside_canvas o.

(** The object at which the loop of [handleMouseDown] stops: the first, from
    the end of the vector, that contains the point. *)
Definition clicked (objs : list DraggableObject) (mouseX mouseY : Z)
    : option DraggableObject :=
  find (fun o => containsPoint o mouseX mouseY) (rev objs).

(** The event is a primary press that grabs an object lying outside the
    canvas. *)
Definition grabs_outside (m : ObjectManager) (ev : SDL_Event) : bool :=
  match ev with
  | SDL_MOUSEBUTTONDOWN button =>
      (SDL_MouseButtonEvent.button button =? SDL_BUTTON_LEFT)
      && match clicked (objects m) (SDL_MouseButtonEvent.x button)
                       (SDL_MouseButtonEvent.y button) with
         | Some it => negb (inside_canvasb it)
         | None => false
         end
  | _ => false
  end.

(** No event of the queue, handled from [app] on, grabs an object lying
    outside the canvas. *)
Fixpoint no_outside_grab (app : SDLApp) (queue : list SDL_Event) : bool :=
  match queue with
  | [] => true
  | ev :: later =>
      negb (grabs_outside (objectManager app) ev)
      && no_outside_grab (handleEvent app ev) later
  end.

(** The object still has the rectangle that a primary press of the queue
    gave it when it added it. *)
Definition placed_by (queue : list SDL_Event) (o : DraggableObject) : Prop :=
  exists button,
    In (SDL_MOUSEBUTTONDOWN button) queue
    /\ SDL_MouseButtonEvent.button button = SDL_BUTTON_LEFT
    /\ rect o = SDL_Rect.make (SDL_MouseButtonEvent.x button)
                              (SDL_MouseButtonEvent.y button) 80 80.

(** * Properties *)

(** ** Arithmetic of [int] and [std::clamp] *)

Lemma wrap_in_range (z : Z) : Int.in_range z -> Int.wrap z = z.
Proof.
  unfold Int.in_range, Int.wrap, Int.min_int, Int.max_int. intros Hz.
  rewrite Z.mod_small; lia.
Qed.

Lemma wrap_is_int (z : Z) : Int.in_range (Int.wrap z).
Proof.
  unfold Int.in_range, Int.wrap, Int.min_int, Int.max_int.
  pose proof (Z.mod_pos_bound (z + 2147483648) 4294967296 ltac:(lia)). lia.
Qed.

Lemma clamp_between (v lo hi : Z) : lo <= hi -> lo <= clamp v lo hi <= hi.
Proof.
  intros Hle. unfold clamp.
  destruct (v <? lo) eqn:E1; [lia|].
  destruct (hi <? v) eqn:E2; lia.
Qed.

Lemma sub_width_80 : Int.sub WINDOW_WIDTH 80 = 720.
Proof. reflexivity. Qed.

Lemma sub_height_80 : Int.sub WINDOW_HEIGHT 80 = 520.
Proof. reflexivity. Qed.

(** ** The hit test of the code against half-open containment *)

Lemma containsPoint_in_bounds (o : DraggableObject) (px py : Z) :
  fits_int o -> containsPoint o px py = in_bounds (rect o) px py.
Proof.
  intros (_ & _ & _ & _ & Hx & Hy).
  unfold containsPoint, in_bounds, Int.add.
  rewrite (wrap_in_range _ Hx), (wrap_in_range _ Hy).
  rewrite !Z.geb_leb. reflexivity.
Qed.

Lemma in_bounds_iff (rc : SDL_Rect.t) (px py : Z) :
  in_bounds rc px py = true <->
  SDL_Rect.x rc <= px < SDL_Rect.x rc + SDL_Rect.w rc
  /\ SDL_Rect.y rc <= py < SDL_Rect.y rc + SDL_Rect.h rc.
Proof.
  unfold in_bounds. rewrite !andb_true_iff, !Z.leb_le, !Z.ltb_lt. lia.
Qed.

Lemma grab_dragged (o : DraggableObject) (mx my : Z) :
  fits_int o ->
  containsPoint o mx my = true -> grab o mx my = dragged o mx my.
Proof.
  intros Hf Hc.
  rewrite (containsPoint_in_bounds _ _ _ Hf) in Hc.
  apply in_bounds_iff in Hc.
  destruct Hf as (Hx & Hy & Hw & Hh & _ & _).
  unfold grab, dragged, Int.sub.
  unfold Int.in_range, Int.min_int, Int.max_int in *.
  rewrite !wrap_in_range; [reflexivity | |];
    unfold Int.in_range, Int.min_int, Int.max_int; lia.
Qed.

(** ** The loop of [handleMouseDown] *)

(** A hit: the loop went over [over] without a match, stopped at [it], and
    left [under] unvisited. *)
Lemma loop_hit (mx my : Z) (upto passed objs : list DraggableObject) :
  handleMouseDown_loop mx my upto passed = Some objs ->
  exists over it under,
    upto = over ++ it :: under
    /\ Forall (fun o => containsPoint o mx my = false) over
    /\ containsPoint it mx my = true
    /\ objs = (rev under ++ rev over ++ passed) ++ [grab it mx my].
Proof.
  revert passed. induction upto as [|o upto IH]; intros passed H; simpl in H.
  - discriminate.
  - destruct (containsPoint o mx my) eqn:Ho.
    + injection H as <-. exists [], o, upto. simpl. auto.
    + apply IH in H. destruct H as (over & it & under & -> & Hov & Hit & ->).
      exists (o :: over), it, under. simpl. repeat split; auto.
      rewrite <- !app_assoc. reflexivity.
Qed.

Lemma loop_miss (mx my : Z) (upto passed : list DraggableObject) :
  handleMouseDown_loop mx my upto passed = None ->
  Forall (fun o => containsPoint o mx my = false) upto.
Proof.
  revert passed. induction upto as [|o upto IH]; intros passed H; simpl in H.
  - constructor.
  - destruct (containsPoint o mx my) eqn:Ho; [discriminate|].
    constructor; eauto.
Qed.

(** The same in vector order: [front ++ it :: back] with no match in [back]. *)
Lemma press_hit (mx my : Z) (l objs : list DraggableObject) :
  handleMouseDown_loop mx my (rev l) [] = Some objs ->
  exists front it back,
    l = front ++ it :: back
    /\ Forall (fun o => containsPoint o mx my = false) back
    /\ containsPoint it mx my = true
    /\ objs = (front ++ back) ++ [grab it mx my].
Proof.
  intros H. apply loop_hit in H.
  destruct H as (over & it & under & Hrev & Hov & Hit & ->).
  exists (rev under), it, (rev over). repeat split.
  - rewrite <- (rev_involutive l), Hrev, rev_app_distr. simpl.
    rewrite <- app_assoc. reflexivity.
  - apply Forall_rev. exact Hov.
  - exact Hit.
  - rewrite app_nil_r. reflexivity.
Qed.

Lemma press_miss (mx my : Z) (l : list DraggableObject) :
  handleMouseDown_loop mx my (rev l) [] = None ->
  Forall (fun o => containsPoint o mx my = false) l.
Proof.
  intros H. apply loop_miss in H.
  rewrite <- (rev_involutive l). apply Forall_rev. exact H.
Qed.

(** ** The specification's [hitTest] and [beginDrag] *)

Lemma hitTest_below_Some (objs : list DraggableObject) (px py : Z) (n i : nat) :
  hitTest_below objs px py n = Some i ->
  (i < n)%nat
  /\ (exists o, nth_error objs i = Some o /\ in_bounds (rect o) px py = true)
  /\ (forall j o', (i < j < n)%nat -> nth_error objs j = Some o' ->
                   in_bounds (rect o') px py = false).
Proof.
  induction n as [|n IH]; simpl; intros H; [discriminate|].
  destruct (nth_error objs n) as [o|] eqn:En.
  - destruct (in_bounds (rect o) px py) eqn:Eo.
    + injection H as <-. split; [lia|]. split; [eauto|].
      intros j o' Hj. lia.
    + destruct (IH H) as (Hi & Ho & Habove). split; [lia|]. split; [exact Ho|].
      intros j o' Hj Hn. destruct (Nat.eq_dec j n) as [->|Hne].
      * congruence.
      * apply (Habove j); [lia | exact Hn].
  - destruct (IH H) as (Hi & Ho & Habove). split; [lia|]. split; [exact Ho|].
    intros j o' Hj Hn. destruct (Nat.eq_dec j n) as [->|Hne].
    + congruence.
    + apply (Habove j); [lia | exact Hn].
Qed.


(** Objects that do not contain the point, at the top of the vector, are
    scanned over. *)
Lemma hitTest_below_skip (front back : list DraggableObject) (px py : Z) :
  Forall (fun o => in_bounds (rect o) px py = false) back ->
  forall k, (k <= length back)%nat ->
    hitTest_below (front ++ back) px py (length front + k)
    = hitTest_below (front ++ back) px py (length front).
Proof.
  intros Hb. induction k as [|k IH]; intros Hk.
  - rewrite Nat.add_0_r. reflexivity.
  - rewrite Nat.add_succ_r. simpl.
    rewrite nth_error_app2 by lia.
    replace (length front + k - length front)%nat with k by lia.
    destruct (nth_error back k) as [o|] eqn:Ek.
    + rewrite Forall_forall in Hb.
      rewrite (Hb o (nth_error_In _ _ Ek)). apply IH. lia.
    + apply IH. lia.
Qed.

Lemma hitTest_split (front back : list DraggableObject) (it : DraggableObject)
    (px py : Z) :
  Forall (fun o => in_bounds (rect o) px py = false) back ->
  in_bounds (rect it) px py = true ->
  hitTest (front ++ it :: back) px py = Some (length front).
Proof.
  intros Hb Hit. unfold hitTest.
  replace (front ++ it :: back) with ((front ++ [it]) ++ back)
    by (rewrite <- app_assoc; reflexivity).
  rewrite length_app.
  rewrite (hitTest_below_skip (front ++ [it]) back px py Hb (length back)) by lia.
  rewrite length_app. simpl. rewrite Nat.add_1_r. simpl.
  rewrite <- app_assoc. simpl.
  rewrite nth_error_app2 by lia. rewrite Nat.sub_diag. simpl.
  rewrite Hit. reflexivity.
Qed.

Lemma hitTest_none (objs : list DraggableObject) (px py : Z) :
  Forall (fun o => in_bounds (rect o) px py = false) objs ->
  hitTest objs px py = None.
Proof.
  intros H. unfold hitTest.
  apply (hitTest_below_skip [] objs px py H (length objs)). lia.
Qed.

Lemma beginDrag_split (front back : list DraggableObject) (it : DraggableObject)
    (mx my : Z) :
  beginDrag (front ++ it :: back) (length front) mx my
  = (front ++ back) ++ [dragged it mx my].
Proof.
  unfold beginDrag.
  rewrite nth_error_app2 by lia. rewrite Nat.sub_diag.
  cbn [nth_error].
  rewrite firstn_app, firstn_all, Nat.sub_diag. cbn [firstn].
  rewrite app_nil_r.
  replace (front ++ it :: back) with ((front ++ [it]) ++ back)
    by (rewrite <- app_assoc; reflexivity).
  replace (S (length front)) with (length (front ++ [it]))
    by (rewrite length_app; simpl; lia).
  rewrite skipn_app, skipn_all, Nat.sub_diag. reflexivity.
Qed.

Lemma Forall_bounds_of_contains (l : list DraggableObject) (mx my : Z) :
  Forall fits_int l ->
  Forall (fun o => containsPoint o mx my = false) l ->
  Forall (fun o => in_bounds (rect o) mx my = false) l.
Proof.
  intros Hf Hc. rewrite Forall_forall in *. intros o Ho.
  rewrite <- (containsPoint_in_bounds o mx my (Hf o Ho)). auto.
Qed.

(** The loop of the code does what [hitTest] followed by [beginDrag]
    describes, on rectangles whose edges are representable. *)
Lemma loop_refines (objs : list DraggableObject) (mx my : Z) :
  Forall fits_int objs ->
  handleMouseDown_loop mx my (rev objs) []
  = option_map (fun i => beginDrag objs i mx my) (hitTest objs mx my).
Proof.
  intros Hf.
  destruct (handleMouseDown_loop mx my (rev objs) []) as [res|] eqn:E.
  - apply press_hit in E.
    destruct E as (front & it & back & -> & Hb & Hit & ->).
    apply Forall_app in Hf. destruct Hf as [Hfront Hrest].
    inversion Hrest as [|? ? Hfit Hback]; subst.
    rewrite (hitTest_split front back it mx my).
    + simpl. rewrite beginDrag_split, (grab_dragged it mx my Hfit Hit).
      reflexivity.
    + apply Forall_bounds_of_contains; assumption.
    + rewrite <- (containsPoint_in_bounds it mx my Hfit). exact Hit.
  - apply press_miss in E.
    rewrite hitTest_none; [reflexivity|].
    apply Forall_bounds_of_contains; assumption.
Qed.

(** ** What each handler does to the vector *)

Lemma objects_addObject (m : ObjectManager) (x y : Z) :
  objects (addObject m x y)
  = objects m ++ [DraggableObject_new x y 80 80 (fst (generateRandomColor (rng m)))].
Proof. reflexivity. Qed.

Lemma objects_new (seeded : mt19937) :
  exists c1 c2 c3,
    objects (ObjectManager_new seeded)
    = [DraggableObject_new 100 100 80 80 c1;
       DraggableObject_new 300 200 80 80 c2;
       DraggableObject_new 500 300 80 80 c3].
Proof. do 3 eexists. reflexivity. Qed.

(** The two outcomes of a primary press. *)
Lemma handleMouseDown_primary (m : ObjectManager) (event : SDL_MouseButtonEvent.t) :
  SDL_MouseButtonEvent.button event = SDL_BUTTON_LEFT ->
  let mx := SDL_MouseButtonEvent.x event in
  let my := SDL_MouseButtonEvent.y event in
  (exists front it back,
      objects m = front ++ it :: back
      /\ Forall (fun o => containsPoint o mx my = false) back
      /\ containsPoint it mx my = true
      /\ handleMouseDown m event
         = {| objects := (front ++ back) ++ [grab it mx my]; rng := rng m |})
  \/ (Forall (fun o => containsPoint o mx my = false) (objects m)
      /\ handleMouseDown m event = addObject m mx my).
Proof.
  intros Hb mx my. unfold handleMouseDown. rewrite Hb, Z.eqb_refl.
  fold mx my.
  destruct (handleMouseDown_loop mx my (rev (objects m)) []) as [res|] eqn:E.
  - left. apply press_hit in E.
    destruct E as (front & it & back & Hl & Hback & Hit & ->).
    exists front, it, back. auto.
  - right. apply press_miss in E. auto.
Qed.

Lemma handleMouseDown_other (m : ObjectManager) (event : SDL_MouseButtonEvent.t) :
  SDL_MouseButtonEvent.button event <> SDL_BUTTON_LEFT ->
  handleMouseDown m event = m.
Proof.
  intros Hb. unfold handleMouseDown.
  apply Z.eqb_neq in Hb. rewrite Hb. reflexivity.
Qed.

Lemma handleMouseUp_other (m : ObjectManager) (event : SDL_MouseButtonEvent.t) :
  SDL_MouseButtonEvent.button event <> SDL_BUTTON_LEFT ->
  handleMouseUp m event = m.
Proof.
  intros Hb. unfold handleMouseUp.
  apply Z.eqb_neq in Hb. rewrite Hb. reflexivity.
Qed.

Lemma handleEvents_app (app : SDLApp) (q1 q2 : list SDL_Event) :
  handleEvents app (q1 ++ q2) = handleEvents (handleEvents app q1) q2.
Proof. apply fold_left_app. Qed.

(** Every state [run] passes through is the state after some queue. *)
Lemma run_is_handleEvents (app : SDLApp) (frames : list (list SDL_Event)) :
  exists queue, run app frames = handleEvents app queue.
Proof.
  revert app. induction frames as [|q frames IH]; intros app; simpl.
  - exists []. reflexivity.
  - destruct (running app).
    + destruct (IH (handleEvents app q)) as [q' Hq'].
      exists (q ++ q'). rewrite handleEvents_app. exact Hq'.
    + exists []. reflexivity.
Qed.

(** ** Properties of single objects kept by the handlers *)

Section Preservation.
Variable P : DraggableObject -> Prop.
Hypothesis P_release : forall o, P o -> P (release o).
Hypothesis P_drag : forall o mx my, P o -> P (drag o mx my).

Lemma up_keeps (m : ObjectManager) (event : SDL_MouseButtonEvent.t) :
  Forall P (objects m) -> Forall P (objects (handleMouseUp m event)).
Proof.
  intros H. unfold handleMouseUp.
  destruct (SDL_MouseButtonEvent.button event =? SDL_BUTTON_LEFT); [|exact H].
  simpl. rewrite Forall_map. eapply Forall_impl; [|exact H]. auto.
Qed.

Lemma motion_keeps (m : ObjectManager) (event : SDL_MouseMotionEvent.t) :
  Forall P (objects m) -> Forall P (objects (handleMouseMotion m event)).
Proof.
  intros H. simpl. rewrite Forall_map. eapply Forall_impl; [|exact H]. auto.
Qed.

(** Events other than a primary press. *)
Lemma quiet_event_keeps (app : SDLApp) (ev : SDL_Event) :
  is_primary_press ev = false ->
  Forall P (objects (objectManager app)) ->
  Forall P (objects (objectManager (handleEvent app ev))).
Proof.
  intros Hq H. destruct ev as [|b|b|mo|sym|]; simpl in *; auto.
  - rewrite handleMouseDown_other; [exact H|].
    apply Z.eqb_neq. exact Hq.
  - apply up_keeps. exact H.
  - apply motion_keeps. exact H.
  - destruct (sym =? SDLK_ESCAPE); exact H.
Qed.

Lemma quiet_events_keep (queue : list SDL_Event) (app : SDLApp) :
  existsb is_primary_press queue = false ->
  Forall P (objects (objectManager app)) ->
  Forall P (objects (objectManager (handleEvents app queue))).
Proof.
  revert app. induction queue as [|ev queue IH]; intros app Hq H; simpl.
  - exact H.
  - simpl in Hq. apply orb_false_iff in Hq. destruct Hq as [Hev Hq].
    apply IH; [exact Hq|]. apply quiet_event_keeps; assumption.
Qed.

Hypothesis P_grab : forall o mx my, P o -> P (grab o mx my).
Hypothesis P_new : forall x y c, P (DraggableObject_new x y 80 80 c).

Lemma down_keeps (m : ObjectManager) (event : SDL_MouseButtonEvent.t) :
  Forall P (objects m) -> Forall P (objects (handleMouseDown m event)).
Proof.
  intros H.
  destruct (Z.eq_dec (SDL_MouseButtonEvent.button event) SDL_BUTTON_LEFT)
    as [Hb|Hb].
  - destruct (handleMouseDown_primary m event Hb)
      as [(front & it & back & Hl & _ & _ & ->) | (_ & ->)].
    + simpl. rewrite Hl in H.
      apply Forall_app in H. destruct H as [Hf Hr].
      inversion Hr; subst.
      apply Forall_app; split; [apply Forall_app; split; assumption|].
      constructor; [|constructor]. auto.
    + rewrite objects_addObject.
      apply Forall_app; split; [exact H|].
      constructor; [|constructor]. apply P_new.
  - rewrite handleMouseDown_other; assumption.
Qed.

Lemma event_keeps (app : SDLApp) (ev : SDL_Event) :
  Forall P (objects (objectManager app)) ->
  Forall P (objects (objectManager (handleEvent app ev))).
Proof.
  intros H. destruct (is_primary_press ev) eqn:Hq.
  - destruct ev; try discriminate. simpl. apply down_keeps. exact H.
  - apply quiet_event_keeps; assumption.
Qed.

Lemma events_keep (queue : list SDL_Event) (app : SDLApp) :
  Forall P (objects (objectManager app)) ->
  Forall P (objects (objectManager (handleEvents app queue))).
Proof.
  revert app. induction queue as [|ev queue IH]; intros app H; simpl.
  - exact H.
  - apply IH. apply event_keeps. exact H.
Qed.
End Preservation.

Lemma size80_release (o : DraggableObject) : size80 o -> size80 (release o).
Proof. auto. Qed.

Lemma size80_drag (o : DraggableObject) (mx my : Z) :
  size80 o -> size80 (drag o mx my).
Proof. unfold drag. destruct (isDragging o); auto. Qed.

Lemma size80_grab (o : DraggableObject) (mx my : Z) :
  size80 o -> size80 (grab o mx my).
Proof. auto. Qed.

Lemma size80_new (x y : Z) (c : SDL_Color.t) :
  size80 (DraggableObject_new x y 80 80 c).
Proof. split; reflexivity. Qed.

Lemma size80_initial (seeded : mt19937) :
  Forall size80 (objects (ObjectManager_new seeded)).
Proof. repeat constructor. Qed.

Lemma size80_reachable (seeded : mt19937) (queue : list SDL_Event) :
  Forall size80 (registry_after seeded queue).
Proof.
  unfold registry_after.
  apply (events_keep size80 size80_release size80_drag size80_grab size80_new).
  apply size80_initial.
Qed.

(** ** Clamping by [drag] *)

Lemma drag_moved_by (o : DraggableObject) (motion : SDL_MouseMotionEvent.t) :
  size80 o ->
  moved_by motion o
    (drag o (SDL_MouseMotionEvent.x motion) (SDL_MouseMotionEvent.y motion)).
Proof.
  intros [Hw Hh]. unfold moved_by, drag.
  destruct (isDragging o) eqn:Hd; [|reflexivity].
  unfold inside_canvas, extent.
  cbn [rect color isDragging dragOffsetX dragOffsetY
       SDL_Rect.x SDL_Rect.y SDL_Rect.w SDL_Rect.h].
  rewrite Hw, Hh, sub_width_80, sub_height_80.
  change (WINDOW_WIDTH - 80) with 720. change (WINDOW_HEIGHT - 80) with 520.
  pose proof (clamp_between
    (Int.sub (SDL_MouseMotionEvent.x motion) (dragOffsetX o)) 0 720 ltac:(lia)).
  pose proof (clamp_between
    (Int.sub (SDL_MouseMotionEvent.y motion) (dragOffsetY o)) 0 520 ltac:(lia)).
  repeat split; auto; lia.
Qed.

Lemma drag_idle (o : DraggableObject) (mx my : Z) :
  isDragging o = false -> drag o mx my = o.
Proof. intros H. unfold drag. rewrite H. reflexivity. Qed.

Lemma drag_inside (o : DraggableObject) (mx my : Z) :
  size80 o -> isDragging o = true -> inside_canvas (drag o mx my).
Proof.
  intros Hs Hd.
  pose proof (drag_moved_by o (SDL_MouseMotionEvent.make mx my) Hs) as H.
  unfold moved_by in H. rewrite Hd in H. simpl in H. tauto.
Qed.

Lemma isDragging_drag (o : DraggableObject) (mx my : Z) :
  isDragging (drag o mx my) = isDragging o.
Proof. unfold drag. destruct (isDragging o) eqn:E; simpl; auto. Qed.

(** C1 (as amended): after a motion event, in every state the program can
    reach, each object that is being dragged sits at the clamped position
    [clamp(mouse - dragOffset, 0, canvas - size)], hence fully inside the
    800x600 canvas, and each object that is not being dragged is exactly as
    it was; the order of the vector is kept. *)
Theorem motion_clamps_dragged_objects
    (seeded : mt19937) (queue : list SDL_Event) (motion : SDL_MouseMotionEvent.t) :
  let m := objectManager (handleEvents (SDLApp_new seeded) queue) in
  Forall2 (moved_by motion) (objects m) (objects (handleMouseMotion m motion))
  /\ rng (handleMouseMotion m motion) = rng m.
Proof.
  intros m. split; [|reflexivity].
  pose proof (size80_reachable seeded queue) as Hs.
  unfold registry_after in Hs. fold m in Hs. simpl.
  induction Hs as [|o l Ho Hl IH]; simpl; constructor.
  - apply drag_moved_by. exact Ho.
  - exact IH.
Qed.

(** C1, the claim as written fails: an object added by a press near the
    corner is not being dragged and stays outside after a motion event. *)
Lemma motion_leaves_idle_object_outside :
  ~ Forall inside_canvas
      (registry_after sample_rng [press SDL_BUTTON_LEFT 790 590; move 0 0]).
Proof.
  intros H. rewrite Forall_forall in H.
  assert (Hin : exists c,
             In (DraggableObject_new 790 590 80 80 c)
                (registry_after sample_rng
                   [press SDL_BUTTON_LEFT 790 590; move 0 0])).
  { eexists. vm_compute. do 3 right. left. reflexivity. }
  destruct Hin as [c Hin]. apply H in Hin.
  unfold inside_canvas in Hin. simpl in Hin.
  unfold WINDOW_WIDTH in Hin. lia.
Qed.

(** ** Drag flags *)

Lemma dragging_count_app (l1 l2 : list DraggableObject) :
  dragging_count (l1 ++ l2) = (dragging_count l1 + dragging_count l2)%nat.
Proof. unfold dragging_count. rewrite filter_app, length_app. reflexivity. Qed.

Lemma dragging_count_release (l : list DraggableObject) :
  dragging_count (map release l) = 0%nat.
Proof. induction l as [|o l IH]; simpl; auto. Qed.

Lemma dragging_count_drag (l : list DraggableObject) (mx my : Z) :
  dragging_count (map (fun obj => drag obj mx my) l) = dragging_count l.
Proof.
  unfold dragging_count. induction l as [|o l IH]; simpl; [reflexivity|].
  rewrite isDragging_drag. destruct (isDragging o); simpl; rewrite IH; reflexivity.
Qed.

Lemma dragging_count_cons (o : DraggableObject) (l : list DraggableObject) :
  dragging_count (o :: l)
  = ((if isDragging o then 1 else 0) + dragging_count l)%nat.
Proof. unfold dragging_count. simpl. destruct (isDragging o); reflexivity. Qed.

(** A primary press sets the flag of at most one more object. *)
Lemma dragging_count_press (m : ObjectManager) (event : SDL_MouseButtonEvent.t) :
  (dragging_count (objects (handleMouseDown m event))
   <= S (dragging_count (objects m)))%nat.
Proof.
  destruct (Z.eq_dec (SDL_MouseButtonEvent.button event) SDL_BUTTON_LEFT)
    as [Hb|Hb].
  - destruct (handleMouseDown_primary m event Hb)
      as [(front & it & back & Hl & _ & _ & ->) | (_ & ->)].
    + simpl. rewrite Hl.
      rewrite !dragging_count_app, !dragging_count_cons.
      change (dragging_count []) with 0%nat. simpl isDragging.
      destruct (isDragging it); lia.
    + rewrite objects_addObject, dragging_count_app, dragging_count_cons.
      change (dragging_count []) with 0%nat.
      cbn [isDragging DraggableObject_new]. lia.
  - rewrite handleMouseDown_other by assumption. lia.
Qed.

Lemma flags_agree_le (held : bool) (objs : list DraggableObject) :
  flags_agree held objs -> (dragging_count objs <= 1)%nat.
Proof. destruct held; simpl; lia. Qed.

Lemma flags_agree_events (queue : list SDL_Event) (held : bool) (app : SDLApp) :
  flags_agree held (objects (objectManager app)) ->
  no_press_while_held held queue = true ->
  (dragging_count (objects (objectManager (handleEvents app queue))) <= 1)%nat.
Proof.
  revert held app.
  induction queue as [|ev queue IH]; intros held app Hinv Hq.
  - simpl. eapply flags_agree_le. exact Hinv.
  - destruct ev as [|b|b|mo|sym|]; simpl in Hq |- *.
    + apply (IH held); assumption.
    + destruct (SDL_MouseButtonEvent.button b =? SDL_BUTTON_LEFT) eqn:Eb.
      * apply andb_true_iff in Hq. destruct Hq as [Hh Hq].
        apply negb_true_iff in Hh. subst held.
        apply (IH true); [|exact Hq]. simpl in Hinv |- *.
        pose proof (dragging_count_press (objectManager app) b). lia.
      * apply (IH held); [|exact Hq]. simpl.
        rewrite handleMouseDown_other; [exact Hinv|].
        apply Z.eqb_neq. exact Eb.
    + destruct (SDL_MouseButtonEvent.button b =? SDL_BUTTON_LEFT) eqn:Eb.
      * apply (IH false); [|exact Hq]. simpl.
        unfold handleMouseUp. rewrite Eb. simpl.
        apply dragging_count_release.
      * apply (IH held); [|exact Hq]. simpl.
        rewrite handleMouseUp_other; [exact Hinv|].
        apply Z.eqb_neq. exact Eb.
    + apply (IH held); [|exact Hq]. simpl.
      unfold flags_agree. rewrite dragging_count_drag. exact Hinv.
    + apply (IH held); [|exact Hq].
      destruct (sym =? SDLK_ESCAPE); exact Hinv.
    + apply (IH held); assumption.
Qed.

(** C2 (as amended): from the initial registry, along every queue of events
    in which no primary press arrives while the primary button is still
    held, at most one object has [isDragging] set. *)
Theorem at_most_one_dragging (seeded : mt19937) (queue : list SDL_Event) :
  no_press_while_held false queue = true ->
  (dragging_count (registry_after seeded queue) <= 1)%nat.
Proof.
  intros Hq. unfold registry_after.
  apply (flags_agree_events queue false); [|exact Hq].
  reflexivity.
Qed.

Lemma at_most_one_dragging_witness :
  (dragging_count
     (registry_after sample_rng
        [press SDL_BUTTON_LEFT 110 110; move 200 200;
         lift SDL_BUTTON_LEFT 200 200; press SDL_BUTTON_LEFT 310 210])
   <= 1)%nat.
Proof.
  apply (at_most_one_dragging sample_rng
           [press SDL_BUTTON_LEFT 110 110; move 200 200;
            lift SDL_BUTTON_LEFT 200 200; press SDL_BUTTON_LEFT 310 210]).
  reflexivity.
Defined.

(** C2, the claim as written fails: two primary presses with no release
    between them leave two objects with [isDragging] set. *)
Lemma two_presses_two_dragging :
  ~ (dragging_count
       (registry_after sample_rng
          [press SDL_BUTTON_LEFT 110 110; press SDL_BUTTON_LEFT 310 210])
     <= 1)%nat.
Proof.
  assert (E : dragging_count
                (registry_after sample_rng
                   [press SDL_BUTTON_LEFT 110 110; press SDL_BUTTON_LEFT 310 210])
              = 2%nat) by (vm_compute; reflexivity).
  rewrite E. lia.
Qed.

Lemma press_keeps_inside (m : ObjectManager) (event : SDL_MouseButtonEvent.t) :
  Forall inside_canvas (objects m) ->
  Forall (fun o => isDragging o = true -> inside_canvas o)
    (objects (handleMouseDown m event)).
Proof.
  intros H.
  assert (Weak : forall l, Forall inside_canvas l ->
                   Forall (fun o => isDragging o = true -> inside_canvas o) l).
  { intros l Hl. eapply Forall_impl; [|exact Hl]. auto. }
  destruct (Z.eq_dec (SDL_MouseButtonEvent.button event) SDL_BUTTON_LEFT)
    as [Hb|Hb].
  - destruct (handleMouseDown_primary m event Hb)
      as [(front & it & back & Hl & _ & _ & ->) | (_ & ->)].
    + simpl. rewrite Hl in H.
      apply Forall_app in H. destruct H as [Hf Hr]. inversion Hr; subst.
      apply Weak.
      apply Forall_app; split; [apply Forall_app; split; assumption|].
      constructor; [|constructor]. assumption.
    + rewrite objects_addObject.
      apply Forall_app; split; [apply Weak; exact H|].
      constructor; [|constructor]. simpl. discriminate.
  - rewrite handleMouseDown_other by assumption. apply Weak. exact H.
Qed.

Lemma inside_canvasb_true (o : DraggableObject) :
  inside_canvasb o = true -> inside_canvas o.
Proof.
  unfold inside_canvasb, inside_canvas.
  rewrite !andb_true_iff, !Z.leb_le. tauto.
Qed.

Lemma find_skip (A : Type) (f : A -> bool) (l1 l2 : list A) :
  Forall (fun a => f a = false) l1 -> find f (l1 ++ l2) = find f l2.
Proof.
  induction 1 as [|a l1 Ha Hl IH]; simpl; [reflexivity|].
  rewrite Ha. exact IH.
Qed.

(** [clicked] is the object at which the loop stops. *)
Lemma clicked_split (front back : list DraggableObject) (it : DraggableObject)
    (mx my : Z) :
  Forall (fun o => containsPoint o mx my = false) back ->
  containsPoint it mx my = true ->
  clicked (front ++ it :: back) mx my = Some it.
Proof.
  intros Hb Hit. unfold clicked.
  rewrite rev_app_distr. simpl. rewrite <- app_assoc.
  rewrite find_skip by (apply Forall_rev; exact Hb).
  simpl. rewrite Hit. reflexivity.
Qed.

(** A press moves nothing: the rectangles after it are those before it, and
    on a miss the new one; an object that is dragging after it has the
    rectangle of an object that was there before it. *)
Lemma press_moves_nothing (m : ObjectManager) (event : SDL_MouseButtonEvent.t) :
  (exists added,
      Permutation (map rect (objects (handleMouseDown m event)))
                  (map rect (objects m) ++ added)
      /\ (added = []
          \/ added = [SDL_Rect.make (SDL_MouseButtonEvent.x event)
                                    (SDL_MouseButtonEvent.y event) 80 80]))
  /\ Forall (fun o' => isDragging o' = true ->
                       exists o, In o (objects m) /\ rect o' = rect o)
            (objects (handleMouseDown m event)).
Proof.
  assert (Old : forall l : list DraggableObject,
             incl l (objects m) ->
             Forall (fun o' => isDragging o' = true ->
                               exists o, In o (objects m) /\ rect o' = rect o) l).
  { intros l Hl. apply Forall_forall. intros o Ho _. exists o. auto. }
  destruct (Z.eq_dec (SDL_MouseButtonEvent.button event) SDL_BUTTON_LEFT)
    as [Hb|Hb].
  - destruct (handleMouseDown_primary m event Hb)
      as [(front & it & back & Hl & _ & _ & ->) | (_ & ->)].
    + split.
      * exists []. split; [|left; reflexivity].
        rewrite app_nil_r, Hl. simpl objects.
        rewrite !map_app. simpl map.
        change (rect (grab it (SDL_MouseButtonEvent.x event)
                              (SDL_MouseButtonEvent.y event)))
          with (rect it).
        rewrite <- app_assoc.
        apply Permutation_app_head. symmetry. apply Permutation_cons_append.
      * simpl objects. apply Forall_app. split.
        -- apply Old. rewrite Hl. intros o Ho.
           apply in_app_or in Ho. apply in_or_app.
           destruct Ho as [Ho|Ho]; [left; exact Ho | right; right; exact Ho].
        -- constructor; [|constructor]. intros _. exists it. split.
           ++ rewrite Hl. apply in_or_app. right. left. reflexivity.
           ++ reflexivity.
    + split.
      * eexists. split; [|right; reflexivity].
        rewrite objects_addObject, map_app. apply Permutation_refl.
      * rewrite objects_addObject. apply Forall_app. split.
        -- apply Old. apply incl_refl.
        -- constructor; [|constructor]. simpl. discriminate.
  - rewrite handleMouseDown_other by assumption. split.
    + exists []. rewrite app_nil_r.
      split; [apply Permutation_refl | left; reflexivity].
    + apply Old. apply incl_refl.
Qed.

(** One event that grabs no object lying outside the canvas. *)
Lemma settled_event (app : SDLApp) (ev : SDL_Event) :
  grabs_outside (objectManager app) ev = false ->
  Forall (fun o => size80 o /\ settled o) (objects (objectManager app)) ->
  Forall (fun o => size80 o /\ settled o)
         (objects (objectManager (handleEvent app ev))).
Proof.
  intros Hg H. destruct (is_primary_press ev) eqn:Hp.
  - destruct ev as [|b|b|mo|sym|]; try discriminate. simpl in Hp, Hg |- *.
    rewrite Hp in Hg. simpl in Hg. apply Z.eqb_eq in Hp.
    destruct (handleMouseDown_primary (objectManager app) b Hp)
      as [(front & it & back & Hl & Hback & Hit & ->) | (_ & ->)].
    + rewrite Hl, (clicked_split front back it _ _ Hback Hit) in Hg.
      apply negb_false_iff in Hg. apply inside_canvasb_true in Hg.
      simpl. rewrite Hl in H.
      apply Forall_app in H. destruct H as [Hf Hr]. inversion Hr; subst.
      apply Forall_app; split; [apply Forall_app; split; assumption|].
      constructor; [|constructor].
      split; [apply size80_grab; tauto | intros _; exact Hg].
    + rewrite objects_addObject.
      apply Forall_app; split; [exact H|].
      constructor; [|constructor].
      split; [apply size80_new | intros Hd; discriminate Hd].
  - apply quiet_event_keeps; try assumption.
    + intros o [Hs _]. split; [apply size80_release; exact Hs|].
      intros Hd. discriminate Hd.
    + intros o mx my [Hs _]. split; [apply size80_drag; exact Hs|].
      unfold settled. rewrite isDragging_drag. apply drag_inside. exact Hs.
Qed.

Lemma settled_events (queue : list SDL_Event) (app : SDLApp) :
  no_outside_grab app queue = true ->
  Forall (fun o => size80 o /\ settled o) (objects (objectManager app)) ->
  Forall (fun o => size80 o /\ settled o)
         (objects (objectManager (handleEvents app queue))).
Proof.
  revert app. induction queue as [|ev queue IH]; intros app Hq H.
  - exact H.
  - simpl in Hq. apply andb_true_iff in Hq. destruct Hq as [Hev Hq].
    apply negb_true_iff in Hev.
    change (handleEvents app (ev :: queue))
      with (handleEvents (handleEvent app ev) queue).
    apply IH; [exact Hq|]. apply settled_event; assumption.
Qed.

(** After a motion event every dragged object is inside the canvas. *)
Lemma settled_after_motion (seeded : mt19937) (before : list SDL_Event)
    (motion : SDL_MouseMotionEvent.t) :
  Forall (fun o => size80 o /\ settled o)
         (objects (objectManager
                     (handleEvents (SDLApp_new seeded)
                        (before ++ [SDL_MOUSEMOTION motion])))).
Proof.
  rewrite handleEvents_app. simpl. apply Forall_map.
  eapply Forall_impl; [|apply (size80_reachable seeded before)].
  intros o Hs. split; [apply size80_drag; exact Hs|].
  unfold settled. rewrite isDragging_drag. apply drag_inside. exact Hs.
Qed.

Lemma no_press_no_outside_grab (queue : list SDL_Event) (app : SDLApp) :
  existsb is_primary_press queue = false -> no_outside_grab app queue = true.
Proof.
  revert app. induction queue as [|ev queue IH]; intros app H; simpl.
  - reflexivity.
  - simpl in H. apply orb_false_iff in H. destruct H as [Hev Hq].
    rewrite (IH _ Hq), andb_true_r.
    destruct ev; simpl in *; try reflexivity. rewrite Hev. reflexivity.
Qed.

Lemma placed_by_more (pre : list SDL_Event) (ev : SDL_Event)
    (o : DraggableObject) :
  placed_by pre o -> placed_by (pre ++ [ev]) o.
Proof.
  intros (b & Hin & Hb & Hr). exists b.
  split; [apply in_or_app; left; exact Hin | auto].
Qed.

(** Every object lies inside the canvas or is where a press put it. *)
Lemma placed_event (pre : list SDL_Event) (app : SDLApp) (ev : SDL_Event) :
  Forall (fun o => size80 o /\ (inside_canvas o \/ placed_by pre o))
         (objects (objectManager app)) ->
  Forall (fun o => size80 o /\ (inside_canvas o \/ placed_by (pre ++ [ev]) o))
         (objects (objectManager (handleEvent app ev))).
Proof.
  intros H0.
  assert (H : Forall (fun o => size80 o
                               /\ (inside_canvas o \/ placed_by (pre ++ [ev]) o))
                     (objects (objectManager app))).
  { eapply Forall_impl; [|exact H0]. intros o [Hs [Hi|Hp]].
    - split; [exact Hs | left; exact Hi].
    - split; [exact Hs | right; apply placed_by_more; exact Hp]. }
  clear H0. destruct (is_primary_press ev) eqn:Hp.
  - destruct ev as [|b|b|mo|sym|]; try discriminate. simpl in Hp |- *.
    apply Z.eqb_eq in Hp.
    destruct (handleMouseDown_primary (objectManager app) b Hp)
      as [(front & it & back & Hl & _ & _ & ->) | (_ & ->)].
    + simpl. rewrite Hl in H.
      apply Forall_app in H. destruct H as [Hf Hr]. inversion Hr; subst.
      apply Forall_app; split; [apply Forall_app; split; assumption|].
      constructor; [|constructor]. assumption.
    + rewrite objects_addObject.
      apply Forall_app; split; [exact H|].
      constructor; [|constructor].
      split; [apply size80_new|]. right. exists b.
      split; [apply in_or_app; right; left; reflexivity|].
      split; [exact Hp | reflexivity].
  - apply quiet_event_keeps; try assumption.
    + intros o Ho. exact Ho.
    + intros o mx my [Hs Hd]. split; [apply size80_drag; exact Hs|].
      destruct (isDragging o) eqn:E.
      * left. apply drag_inside; assumption.
      * rewrite drag_idle by exact E. exact Hd.
Qed.

Lemma placed_events (queue pre : list SDL_Event) (app : SDLApp) :
  Forall (fun o => size80 o /\ (inside_canvas o \/ placed_by pre o))
         (objects (objectManager app)) ->
  Forall (fun o => size80 o /\ (inside_canvas o \/ placed_by (pre ++ queue) o))
         (objects (objectManager (handleEvents app queue))).
Proof.
  revert pre app. induction queue as [|ev queue IH]; intros pre app H.
  - rewrite app_nil_r. exact H.
  - change (handleEvents app (ev :: queue))
      with (handleEvents (handleEvent app ev) queue).
    replace (pre ++ ev :: queue) with ((pre ++ [ev]) ++ queue)
      by (rewrite <- app_assoc; reflexivity).
    apply IH. apply placed_event. exact H.
Qed.

(** C3 (as amended).  In every state the program reaches:
    - every object, dragged or not, lies fully inside the canvas or still
      has the rectangle [(x, y, 80, 80)] that a primary press at [(x, y)]
      gave it when it added it: only an object added outside and not moved
      since can be outside;
    - after a motion event every object whose [isDragging] is set lies
      fully inside the canvas, and so it stays through all later events
      until a primary press grabs an object that itself lies outside the
      canvas; in particular through any events that hold no primary press;
    - a press moves no object: the rectangles after it are those before it,
      plus the new one on a miss, and an object that is dragging after it
      has the rectangle an object had before it; so right after the press
      that begins a drag the dragging objects are inside the canvas when
      every object was inside it before the press. *)
Theorem dragging_inside_canvas :
  (forall (seeded : mt19937) (before : list SDL_Event)
          (motion : SDL_MouseMotionEvent.t) (after : list SDL_Event),
      existsb is_primary_press after = false ->
      Forall (fun o => isDragging o = true -> inside_canvas o)
        (registry_after seeded (before ++ SDL_MOUSEMOTION motion :: after)))
  /\ (forall (m : ObjectManager) (event : SDL_MouseButtonEvent.t),
         Forall inside_canvas (objects m) ->
         Forall (fun o => isDragging o = true -> inside_canvas o)
           (objects (handleMouseDown m event)))
  /\ (forall (seeded : mt19937) (before : list SDL_Event)
             (motion : SDL_MouseMotionEvent.t) (after : list SDL_Event),
         no_outside_grab
           (handleEvents (SDLApp_new seeded) (before ++ [SDL_MOUSEMOTION motion]))
           after = true ->
         Forall (fun o => isDragging o = true -> inside_canvas o)
           (registry_after seeded (before ++ SDL_MOUSEMOTION motion :: after)))
  /\ (forall (seeded : mt19937) (queue : list SDL_Event),
         no_outside_grab (SDLApp_new seeded) queue = true ->
         Forall (fun o => isDragging o = true -> inside_canvas o)
           (registry_after seeded queue))
  /\ (forall (m : ObjectManager) (event : SDL_MouseButtonEvent.t),
         (exists added,
             Permutation (map rect (objects (handleMouseDown m event)))
                         (map rect (objects m) ++ added)
             /\ (added = []
                 \/ added = [SDL_Rect.make (SDL_MouseButtonEvent.x event)
                                           (SDL_MouseButtonEvent.y event) 80 80]))
         /\ Forall (fun o' => isDragging o' = true ->
                              exists o, In o (objects m) /\ rect o' = rect o)
                   (objects (handleMouseDown m event)))
  /\ (forall (seeded : mt19937) (queue : list SDL_Event),
         Forall (fun o => inside_canvas o \/ placed_by queue o)
                (registry_after seeded queue)).
Proof.
  assert (Main : forall seeded before motion after,
             no_outside_grab
               (handleEvents (SDLApp_new seeded)
                  (before ++ [SDL_MOUSEMOTION motion])) after = true ->
             Forall (fun o => isDragging o = true -> inside_canvas o)
               (registry_after seeded
                  (before ++ SDL_MOUSEMOTION motion :: after))).
  { intros seeded before motion after Hq. unfold registry_after.
    replace (before ++ SDL_MOUSEMOTION motion :: after)
      with ((before ++ [SDL_MOUSEMOTION motion]) ++ after)
      by (rewrite <- app_assoc; reflexivity).
    rewrite handleEvents_app.
    eapply Forall_impl;
      [|apply (settled_events after _ Hq); apply settled_after_motion].
    intros o [_ H]. exact H. }
  split; [|split; [exact press_keeps_inside|split; [exact Main|split; [|split]]]].
  - intros seeded before motion after Hq. apply Main.
    apply no_press_no_outside_grab. exact Hq.
  - intros seeded queue Hq. unfold registry_after.
    eapply Forall_impl; [|apply (settled_events queue _ Hq)].
    + intros o [_ H]. exact H.
    + simpl. repeat constructor; intros Hd; discriminate Hd.
  - exact press_moves_nothing.
  - intros seeded queue. unfold registry_after.
    eapply Forall_impl;
      [|apply (placed_events queue [] (SDLApp_new seeded))].
    + intros o [_ H]. exact H.
    + simpl.
      repeat (apply Forall_cons;
              [split; [apply size80_new
                      | left; unfold inside_canvas; simpl;
                        unfold WINDOW_WIDTH, WINDOW_HEIGHT; lia]|]).
      apply Forall_nil.
Qed.

Lemma dragging_inside_canvas_witness :
  Forall (fun o => isDragging o = true -> inside_canvas o)
    (registry_after sample_rng
       ([press SDL_BUTTON_LEFT 790 590; lift SDL_BUTTON_LEFT 790 590;
         press SDL_BUTTON_LEFT 110 110]
        ++ SDL_MOUSEMOTION (SDL_MouseMotionEvent.make 300 300)
        :: [press SDL_BUTTON_LEFT 700 50; press 3 10 10; move 900 700]))
  /\ Forall (fun o => isDragging o = true -> inside_canvas o)
       (registry_after sample_rng
          ([press SDL_BUTTON_LEFT 790 590; press SDL_BUTTON_LEFT 795 595]
           ++ SDL_MOUSEMOTION (SDL_MouseMotionEvent.make 799 599)
           :: [press 3 10 10; move 900 700])).
Proof.
  split.
  - apply (proj1 (proj2 (proj2 dragging_inside_canvas)) sample_rng
             [press SDL_BUTTON_LEFT 790 590; lift SDL_BUTTON_LEFT 790 590;
              press SDL_BUTTON_LEFT 110 110]
             (SDL_MouseMotionEvent.make 300 300)
             [press SDL_BUTTON_LEFT 700 50; press 3 10 10; move 900 700]).
    vm_compute. reflexivity.
  - apply (proj1 dragging_inside_canvas sample_rng
             [press SDL_BUTTON_LEFT 790 590; press SDL_BUTTON_LEFT 795 595]
             (SDL_MouseMotionEvent.make 799 599)
             [press 3 10 10; move 900 700]).
    reflexivity.
Defined.

(** C3, the claim as written fails: an object added at (790, 590) and then
    grabbed is dragging, and outside the canvas, before any motion event. *)
Lemma grabbed_object_outside_before_motion :
  ~ Forall (fun o => isDragging o = true -> inside_canvas o)
      (registry_after sample_rng
         [press SDL_BUTTON_LEFT 790 590; press SDL_BUTTON_LEFT 795 595]).
Proof.
  intros H. rewrite Forall_forall in H.
  assert (Hin : exists o,
             In o (registry_after sample_rng
                     [press SDL_BUTTON_LEFT 790 590; press SDL_BUTTON_LEFT 795 595])
             /\ isDragging o = true /\ SDL_Rect.x (rect o) = 790
             /\ SDL_Rect.w (rect o) = 80).
  { eexists. split; [vm_compute; do 3 right; left; reflexivity|].
    vm_compute. auto. }
  destruct Hin as (o & Hin & Hd & Hx & Hw).
  destruct (H o Hin Hd) as [Hxin _].
  rewrite Hx, Hw in Hxin. unfold WINDOW_WIDTH in Hxin. lia.
Qed.

(** ** Hit test and start of a drag *)




Lemma length_without (A : Type) (l : list A) (i : nat) :
  (i < length l)%nat ->
  length (firstn i l ++ skipn (S i) l) = (length l - 1)%nat.
Proof.
  intros Hi. rewrite length_app, length_firstn, length_skipn. lia.
Qed.

(** C5: a primary press on the object that [hitTest] returns sets its
    [isDragging], records [dragOffset = (mouseX - x, mouseY - y)], and moves
    it to the end of the vector; the other objects keep their order.  The
    object is then the last element, and [hitTest] at the same point returns
    its index. *)
Theorem press_on_object_begins_drag
    (m : ObjectManager) (event : SDL_MouseButtonEvent.t) (index : nat) :
  SDL_MouseButtonEvent.button event = SDL_BUTTON_LEFT ->
  Forall fits_int (objects m) ->
  hitTest (objects m) (SDL_MouseButtonEvent.x event) (SDL_MouseButtonEvent.y event)
  = Some index ->
  let mouseX := SDL_MouseButtonEvent.x event in
  let mouseY := SDL_MouseButtonEvent.y event in
  let m' := handleMouseDown m event in
  let last := (length (objects m) - 1)%nat in
  exists o,
    nth_error (objects m) index = Some o
    /\ objects m'
       = (firstn index (objects m) ++ skipn (S index) (objects m))
         ++ [ {| rect := rect o;
                 color := color o;
                 isDragging := true;
                 dragOffsetX := mouseX - SDL_Rect.x (rect o);
                 dragOffsetY := mouseY - SDL_Rect.y (rect o) |} ]
    /\ rng m' = rng m
    /\ length (objects m') = length (objects m)
    /\ nth_error (objects m') last = Some (dragged o mouseX mouseY)
    /\ hitTest (objects m') mouseX mouseY = Some last.
Proof.
  intros Hb Hf Hh mouseX mouseY m' last.
  pose proof (loop_refines (objects m) mouseX mouseY Hf) as Hloop.
  fold mouseX mouseY in Hh. rewrite Hh in Hloop. simpl in Hloop.
  unfold hitTest in Hh. apply hitTest_below_Some in Hh.
  destruct Hh as (Hi & (o & Hn & Hin) & _).
  assert (Hm' : m' = {| objects := beginDrag (objects m) index mouseX mouseY;
                        rng := rng m |}).
  { unfold m', handleMouseDown. rewrite Hb, Z.eqb_refl.
    fold mouseX mouseY. rewrite Hloop. reflexivity. }
  assert (Hobjs : objects m'
                  = (firstn index (objects m) ++ skipn (S index) (objects m))
                    ++ [dragged o mouseX mouseY]).
  { rewrite Hm'. simpl. unfold beginDrag. rewrite Hn. reflexivity. }
  assert (Hlen : length (firstn index (objects m) ++ skipn (S index) (objects m))
                 = last) by (apply length_without; exact Hi).
  exists o. split; [exact Hn|]. split; [exact Hobjs|].
  split; [rewrite Hm'; reflexivity|].
  split; [|split].
  - rewrite Hobjs, length_app, Hlen. unfold last. simpl. lia.
  - rewrite Hobjs, nth_error_app2 by lia. rewrite Hlen, Nat.sub_diag.
    reflexivity.
  - rewrite Hobjs, <- Hlen. apply hitTest_split; [constructor|exact Hin].
Qed.

Lemma press_on_object_begins_drag_witness :
  exists o,
    nth_error (objects (ObjectManager_new sample_rng)) 0 = Some o
    /\ objects (handleMouseDown (ObjectManager_new sample_rng)
                  (SDL_MouseButtonEvent.make SDL_BUTTON_LEFT 110 120))
       = (firstn 0 (objects (ObjectManager_new sample_rng))
          ++ skipn 1 (objects (ObjectManager_new sample_rng)))
         ++ [ {| rect := rect o;
                 color := color o;
                 isDragging := true;
                 dragOffsetX := 110 - SDL_Rect.x (rect o);
                 dragOffsetY := 120 - SDL_Rect.y (rect o) |} ]
    /\ hitTest (objects (handleMouseDown (ObjectManager_new sample_rng)
                           (SDL_MouseButtonEvent.make SDL_BUTTON_LEFT 110 120)))
               110 120
       = Some 2%nat.
Proof.
  destruct (press_on_object_begins_drag (ObjectManager_new sample_rng)
              (SDL_MouseButtonEvent.make SDL_BUTTON_LEFT 110 120) 0)
    as (o & Hn & Hobjs & _ & _ & _ & Hhit).
  - reflexivity.
  - repeat constructor; unfold Int.in_range, Int.min_int, Int.max_int;
      simpl; lia.
  - reflexivity.
  - exists o. split; [exact Hn|]. split; [exact Hobjs | exact Hhit].
Defined.

(** ** Adding an object *)

Lemma loop_all_miss (mx my : Z) (l : list DraggableObject) :
  Forall (fun o => containsPoint o mx my = false) l ->
  handleMouseDown_loop mx my (rev l) [] = None.
Proof.
  intros H.
  destruct (handleMouseDown_loop mx my (rev l) []) as [res|] eqn:E;
    [|reflexivity].
  apply press_hit in E. destruct E as (front & it & back & -> & _ & Hit & _).
  apply Forall_app in H. destruct H as [_ H].
  inversion H; subst. congruence.
Qed.

Lemma loop_some_hit (mx my : Z) (l : list DraggableObject) :
  existsb (fun o => containsPoint o mx my) l = true ->
  exists front it back,
    l = front ++ it :: back
    /\ handleMouseDown_loop mx my (rev l) []
       = Some ((front ++ back) ++ [grab it mx my]).
Proof.
  intros H.
  destruct (handleMouseDown_loop mx my (rev l) []) as [res|] eqn:E.
  - apply press_hit in E. destruct E as (front & it & back & -> & _ & _ & ->).
    exists front, it, back. split; reflexivity.
  - apply press_miss in E. apply existsb_exists in H.
    destruct H as (o & Ho & Hc). rewrite Forall_forall in E.
    rewrite (E o Ho) in Hc. discriminate.
Qed.

Lemma Uint8_byte (z : Z) : 0 <= Uint8 z <= 255.
Proof.
  unfold Uint8. pose proof (Z.mod_pos_bound z 256 ltac:(lia)). lia.
Qed.

Lemma generateRandomColor_opaque (g : mt19937) :
  let c := fst (generateRandomColor g) in
  SDL_Color.a c = 255
  /\ 0 <= SDL_Color.r c <= 255
  /\ 0 <= SDL_Color.g c <= 255
  /\ 0 <= SDL_Color.b c <= 255.
Proof. simpl. repeat split; apply Uint8_byte. Qed.

(** C6: a primary press at a point that no object contains appends one
    object, 80x80, with its top-left corner at the press coordinates as they
    are (no clamping), not dragging; the objects already there are
    unchanged.  Its colour is freshly generated: red, green and blue are the
    next three values the generator had not yet given out, in that order,
    each cast to a byte, and alpha is 255; the generator moves on by those
    three draws, so that they are not used again. *)
Theorem press_on_empty_spot_adds_object
    (m : ObjectManager) (event : SDL_MouseButtonEvent.t) :
  SDL_MouseButtonEvent.button event = SDL_BUTTON_LEFT ->
  Forall (fun o => containsPoint o (SDL_MouseButtonEvent.x event)
                                   (SDL_MouseButtonEvent.y event) = false)
         (objects m) ->
  let next := consumed (rng m) in
  let c := SDL_Color.make (Uint8 (outputs (rng m) next))
                          (Uint8 (outputs (rng m) (next + 1)))
                          (Uint8 (outputs (rng m) (next + 2)))
                          255 in
  objects (handleMouseDown m event)
  = objects m
    ++ [ {| rect := SDL_Rect.make (SDL_MouseButtonEvent.x event)
                                  (SDL_MouseButtonEvent.y event) 80 80;
            color := c;
            isDragging := false;
            dragOffsetX := 0;
            dragOffsetY := 0 |} ]
  /\ rng (handleMouseDown m event)
     = {| outputs := outputs (rng m); consumed := (next + 3)%nat |}
  /\ c = fst (generateRandomColor (rng m))
  /\ rng (handleMouseDown m event) = snd (generateRandomColor (rng m))
  /\ consumed (rng (handleMouseDown m event)) = (consumed (rng m) + 3)%nat
  /\ SDL_Color.a c = 255
  /\ 0 <= SDL_Color.r c <= 255
  /\ 0 <= SDL_Color.g c <= 255
  /\ 0 <= SDL_Color.b c <= 255.
Proof.
  intros Hb Hmiss next c.
  assert (E : handleMouseDown m event
              = addObject m (SDL_MouseButtonEvent.x event)
                            (SDL_MouseButtonEvent.y event)).
  { unfold handleMouseDown. rewrite Hb, Z.eqb_refl.
    rewrite (loop_all_miss _ _ _ Hmiss). reflexivity. }
  assert (Hc : fst (generateRandomColor (rng m)) = c).
  { unfold c, next, generateRandomColor, colorDist. simpl.
    rewrite !Nat.add_1_r.
    replace (consumed (rng m) + 2)%nat with (S (S (consumed (rng m)))) by lia.
    reflexivity. }
  assert (Hg : snd (generateRandomColor (rng m))
               = {| outputs := outputs (rng m); consumed := (next + 3)%nat |}).
  { unfold next, generateRandomColor, colorDist. simpl.
    replace (consumed (rng m) + 3)%nat with (S (S (S (consumed (rng m)))))
      by lia.
    reflexivity. }
  rewrite E.
  split; [rewrite objects_addObject, Hc; reflexivity|].
  split; [exact Hg|].
  split; [symmetry; exact Hc|].
  split; [reflexivity|].
  split; [change (rng (addObject m (SDL_MouseButtonEvent.x event)
                                   (SDL_MouseButtonEvent.y event)))
            with (snd (generateRandomColor (rng m)));
          rewrite Hg; reflexivity|].
  rewrite <- Hc. apply generateRandomColor_opaque.
Qed.

Lemma press_on_empty_spot_adds_object_witness :
  objects (handleMouseDown (ObjectManager_new sample_rng)
             (SDL_MouseButtonEvent.make SDL_BUTTON_LEFT 700 500))
  = objects (ObjectManager_new sample_rng)
    ++ [ {| rect := SDL_Rect.make 700 500 80 80;
            color := SDL_Color.make 82 119 156 255;
            isDragging := false;
            dragOffsetX := 0;
            dragOffsetY := 0 |} ].
Proof.
  apply (press_on_empty_spot_adds_object (ObjectManager_new sample_rng)
           (SDL_MouseButtonEvent.make SDL_BUTTON_LEFT 700 500)).
  - reflexivity.
  - repeat constructor.
Defined.

(** ** Release and motion without a drag *)

Lemma map_drag_idle (l : list DraggableObject) (mx my : Z) :
  existsb isDragging l = false -> map (fun obj => drag obj mx my) l = l.
Proof.
  induction l as [|o l IH]; simpl; intros H; [reflexivity|].
  apply orb_false_iff in H. destruct H as [Ho Hl].
  rewrite (drag_idle o mx my Ho), (IH Hl). reflexivity.
Qed.

(** C7: handling a primary release twice gives the state that handling it
    once gives; a motion event handled while no object has [isDragging] set
    leaves the whole registry as it was. *)
Theorem release_idempotent_motion_idle (m : ObjectManager) :
  (forall x1 y1 x2 y2,
      handleMouseUp
        (handleMouseUp m (SDL_MouseButtonEvent.make SDL_BUTTON_LEFT x1 y1))
        (SDL_MouseButtonEvent.make SDL_BUTTON_LEFT x2 y2)
      = handleMouseUp m (SDL_MouseButtonEvent.make SDL_BUTTON_LEFT x1 y1))
  /\ (forall motion,
         existsb isDragging (objects m) = false ->
         handleMouseMotion m motion = m).
Proof.
  split.
  - intros x1 y1 x2 y2. unfold handleMouseUp. simpl.
    rewrite map_map. reflexivity.
  - intros motion Hidle. unfold handleMouseMotion.
    rewrite (map_drag_idle _ _ _ Hidle). destruct m; reflexivity.
Qed.

Lemma release_idempotent_motion_idle_witness :
  handleMouseMotion (ObjectManager_new sample_rng)
    (SDL_MouseMotionEvent.make 130 140)
  = ObjectManager_new sample_rng.
Proof.
  apply (proj2 (release_idempotent_motion_idle (ObjectManager_new sample_rng))).
  reflexivity.
Defined.

(** ** Size of the registry *)

Lemma length_press (m : ObjectManager) (x y : Z) :
  length (objects (handleMouseDown m (SDL_MouseButtonEvent.make SDL_BUTTON_LEFT x y)))
  = if existsb (fun o => containsPoint o x y) (objects m)
    then length (objects m)
    else S (length (objects m)).
Proof.
  unfold handleMouseDown. simpl.
  destruct (existsb (fun o => containsPoint o x y) (objects m)) eqn:E.
  - destruct (loop_some_hit x y (objects m) E) as (front & it & back & Hl & ->).
    simpl. rewrite Hl. rewrite !length_app. simpl. lia.
  - rewrite loop_all_miss.
    + rewrite objects_addObject, length_app. simpl. lia.
    + apply Forall_forall. intros o Ho.
      destruct (containsPoint o x y) eqn:Ec; [|reflexivity].
      assert (existsb (fun o => containsPoint o x y) (objects m) = true)
        by (apply existsb_exists; eauto).
      congruence.
Qed.

Lemma length_event (app : SDLApp) (ev : SDL_Event) :
  (length (objects (objectManager app))
   <= length (objects (objectManager (handleEvent app ev))))%nat.
Proof.
  destruct ev as [|b|b|mo|sym|]; simpl; try lia.
  - destruct (Z.eq_dec (SDL_MouseButtonEvent.button b) SDL_BUTTON_LEFT)
      as [Hb|Hb].
    + destruct b as [bt x y]. simpl in Hb. subst bt.
      rewrite length_press.
      destruct (existsb _ _); lia.
    + rewrite handleMouseDown_other by assumption. lia.
  - unfold handleMouseUp.
    destruct (SDL_MouseButtonEvent.button b =? SDL_BUTTON_LEFT); simpl;
      [rewrite length_map|]; lia.
  - rewrite length_map. lia.
  - destruct (sym =? SDLK_ESCAPE); simpl; lia.
Qed.

(** C8: the registry starts with exactly three objects; a primary press
    that hits no object makes it one longer, one that hits an object keeps
    its length; no event makes it shorter. *)
Theorem registry_size (seeded : mt19937) :
  length (objects (ObjectManager_new seeded)) = 3%nat
  /\ (forall m x y,
         length (objects (handleMouseDown m
                            (SDL_MouseButtonEvent.make SDL_BUTTON_LEFT x y)))
         = if existsb (fun o => containsPoint o x y) (objects m)
           then length (objects m)
           else S (length (objects m)))
  /\ (forall app ev,
         (length (objects (objectManager app))
          <= length (objects (objectManager (handleEvent app ev))))%nat)
  /\ (forall queue, (3 <= length (registry_after seeded queue))%nat).
Proof.
  split; [reflexivity|]. split; [exact length_press|].
  split; [exact length_event|].
  intros queue. unfold registry_after, handleEvents.
  assert (G : forall app, (3 <= length (objects (objectManager app)))%nat ->
              (3 <= length (objects (objectManager
                                       (fold_left handleEvent queue app))))%nat).
  { induction queue as [|ev queue IH]; intros app H; simpl; [exact H|].
    apply IH. pose proof (length_event app ev). lia. }
  apply G. simpl. lia.
Qed.

(** C9: a press or a release of a button other than the primary one leaves
    the registry, and the whole application state, as it was. *)
Theorem other_buttons_ignored (app : SDLApp) (event : SDL_MouseButtonEvent.t) :
  SDL_MouseButtonEvent.button event <> SDL_BUTTON_LEFT ->
  handleMouseDown (objectManager app) event = objectManager app
  /\ handleMouseUp (objectManager app) event = objectManager app
  /\ handleEvent app (SDL_MOUSEBUTTONDOWN event) = app
  /\ handleEvent app (SDL_MOUSEBUTTONUP event) = app.
Proof.
  intros Hb.
  pose proof (handleMouseDown_other (objectManager app) event Hb) as Hd.
  pose proof (handleMouseUp_other (objectManager app) event Hb) as Hu.
  repeat split; try assumption; simpl.
  - rewrite Hd. destruct app; reflexivity.
  - rewrite Hu. destruct app; reflexivity.
Qed.

Lemma other_buttons_ignored_witness :
  handleEvent (SDLApp_new sample_rng) (press 3 110 110) = SDLApp_new sample_rng
  /\ handleEvent (SDLApp_new sample_rng) (lift 3 110 110) = SDLApp_new sample_rng.
Proof.
  assert (Hb : SDL_MouseButtonEvent.button (SDL_MouseButtonEvent.make 3 110 110)
               <> SDL_BUTTON_LEFT) by (simpl; unfold SDL_BUTTON_LEFT; lia).
  destruct (other_buttons_ignored (SDLApp_new sample_rng)
              (SDL_MouseButtonEvent.make 3 110 110) Hb) as (_ & _ & Hd & Hu).
  split; [exact Hd | exact Hu].
Defined.

(** ** Width and height *)

Lemma extent_drag (o : DraggableObject) (mx my : Z) :
  extent (drag o mx my) = extent o.
Proof. unfold drag. destruct (isDragging o); reflexivity. Qed.

Lemma extents_press (m : ObjectManager) (event : SDL_MouseButtonEvent.t) :
  exists added,
    Permutation (map extent (objects (handleMouseDown m event)))
                (map extent (objects m) ++ added)
    /\ (added = [] \/ added = [(80, 80)]).
Proof.
  destruct (Z.eq_dec (SDL_MouseButtonEvent.button event) SDL_BUTTON_LEFT)
    as [Hb|Hb].
  - destruct (handleMouseDown_primary m event Hb)
      as [(front & it & back & Hl & _ & _ & ->) | (_ & ->)].
    + exists []. split; [|left; reflexivity].
      rewrite app_nil_r, Hl. simpl objects.
      rewrite !map_app. simpl map.
      change (extent (grab it (SDL_MouseButtonEvent.x event)
                              (SDL_MouseButtonEvent.y event)))
        with (extent it).
      rewrite <- app_assoc.
      apply Permutation_app_head. symmetry. apply Permutation_cons_append.
    + exists [(80, 80)]. split; [|right; reflexivity].
      rewrite objects_addObject, map_app. apply Permutation_refl.
  - exists []. rewrite handleMouseDown_other by assumption.
    rewrite app_nil_r. split; [apply Permutation_refl | left; reflexivity].
Qed.

Lemma extents_event (app : SDLApp) (ev : SDL_Event) :
  exists added,
    Permutation (map extent (objects (objectManager (handleEvent app ev))))
                (map extent (objects (objectManager app)) ++ added)
    /\ (added = [] \/ added = [(80, 80)]).
Proof.
  assert (Same : forall l,
             l = map extent (objects (objectManager app)) ->
             exists added,
               Permutation l (map extent (objects (objectManager app)) ++ added)
               /\ (added = [] \/ added = [(80, 80)])).
  { intros l ->. exists []. rewrite app_nil_r.
    split; [apply Permutation_refl | left; reflexivity]. }
  destruct ev as [|b|b|mo|sym|]; simpl.
  - apply Same. reflexivity.
  - apply extents_press.
  - apply Same. unfold handleMouseUp.
    destruct (SDL_MouseButtonEvent.button b =? SDL_BUTTON_LEFT); [|reflexivity].
    simpl. rewrite map_map. reflexivity.
  - apply Same. rewrite map_map. apply map_ext. intros o. apply extent_drag.
  - apply Same. destruct (sym =? SDLK_ESCAPE); reflexivity.
  - apply Same. reflexivity.
Qed.

(** C10: in every state the program can reach, every object is 80 wide and
    80 high, so the upper limits [WINDOW_WIDTH - w] and [WINDOW_HEIGHT - h]
    that [drag] passes to [std::clamp] are not below the lower limit 0; and
    no event changes the width or height of an object: the widths and
    heights after an event are those before it, plus 80x80 for an added
    object. *)
Theorem every_object_is_80_by_80 (seeded : mt19937) (queue : list SDL_Event) :
  Forall (fun o =>
            SDL_Rect.w (rect o) = 80 /\ SDL_Rect.h (rect o) = 80
            /\ Int.sub WINDOW_WIDTH (SDL_Rect.w (rect o))
               = WINDOW_WIDTH - SDL_Rect.w (rect o)
            /\ Int.sub WINDOW_HEIGHT (SDL_Rect.h (rect o))
               = WINDOW_HEIGHT - SDL_Rect.h (rect o)
            /\ 0 <= WINDOW_WIDTH - SDL_Rect.w (rect o)
            /\ 0 <= WINDOW_HEIGHT - SDL_Rect.h (rect o))
         (registry_after seeded queue)
  /\ (forall app ev,
         exists added,
           Permutation (map extent (objects (objectManager (handleEvent app ev))))
                       (map extent (objects (objectManager app)) ++ added)
           /\ (added = [] \/ added = [(80, 80)])).
Proof.
  split; [|exact extents_event].
  eapply Forall_impl; [|apply (size80_reachable seeded queue)].
  intros o [Hw Hh]. rewrite Hw, Hh.
  repeat split; unfold WINDOW_WIDTH, WINDOW_HEIGHT; lia.
Qed.

(** ** Representable rectangles *)

(** With presses inside the window, every rectangle the program holds is
    80x80 with representable edges: the hypothesis of the theorems on
    [hitTest] holds in every such state. *)
Lemma fits_int_drag (o : DraggableObject) (mx my : Z) :
  size80 o /\ fits_int o -> size80 (drag o mx my) /\ fits_int (drag o mx my).
Proof.
  intros [Hs Hf]. split; [apply size80_drag; exact Hs|].
  destruct (isDragging o) eqn:Hd.
  - pose proof (drag_inside o mx my Hs Hd) as [Hx Hy].
    pose proof (size80_drag o mx my Hs) as [Hw Hh].
    unfold fits_int, Int.in_range, Int.min_int, Int.max_int.
    rewrite Hw, Hh in *. unfold WINDOW_WIDTH, WINDOW_HEIGHT in *. lia.
  - rewrite drag_idle by exact Hd. exact Hf.
Qed.

Lemma fits_int_reachable (seeded : mt19937) (queue : list SDL_Event) :
  Forall in_window queue ->
  Forall fits_int (registry_after seeded queue).
Proof.
  intros Hq. unfold registry_after.
  set (P := fun o => size80 o /\ fits_int o).
  assert (Hnew : forall x y c,
             0 <= x < WINDOW_WIDTH -> 0 <= y < WINDOW_HEIGHT ->
             P (DraggableObject_new x y 80 80 c)).
  { intros x y c Hx Hy. split; [apply size80_new|].
    unfold fits_int, Int.in_range, Int.min_int, Int.max_int,
      WINDOW_WIDTH, WINDOW_HEIGHT in *. simpl. lia. }
  assert (G : forall app,
             Forall P (objects (objectManager app)) ->
             Forall P (objects (objectManager (handleEvents app queue)))).
  { induction Hq as [|ev queue Hev Hq IH]; intros app H; simpl; [exact H|].
    apply IH. destruct (is_primary_press ev) eqn:Hp.
    - destruct ev as [|b|b|mo|sym|]; try discriminate. simpl in Hp, Hev |- *.
      apply Z.eqb_eq in Hp.
      destruct (handleMouseDown_primary (objectManager app) b Hp)
        as [(front & it & back & Hl & _ & _ & ->) | (_ & ->)].
      + simpl. rewrite Hl in H.
        apply Forall_app in H. destruct H as [Hf Hr]. inversion Hr; subst.
        apply Forall_app; split; [apply Forall_app; split; assumption|].
        constructor; [|constructor]. assumption.
      + rewrite objects_addObject.
        apply Forall_app; split; [exact H|].
        constructor; [|constructor]. apply Hnew; tauto.
    - apply quiet_event_keeps; try assumption.
      + intros o Ho. exact Ho.
      + intros o mx my Ho. apply fits_int_drag. exact Ho. }
  eapply Forall_impl; [|apply G].
  - intros o [_ Hf]. exact Hf.
  - simpl. repeat constructor;
      unfold Int.in_range, Int.min_int, Int.max_int; simpl; lia.
Qed.


(** * Further properties of the registry *)

(** ** Motion events compose *)

Lemma drag_drag (o : DraggableObject) (mx1 my1 mx2 my2 : Z) :
  drag (drag o mx1 my1) mx2 my2 = drag o mx2 my2.
Proof.
  unfold drag. destruct (isDragging o) eqn:Hd; simpl.
  - reflexivity.
  - rewrite Hd. reflexivity.
Qed.

(** X1: of two motion events handled one after the other only the second
    counts: the registry is the one the second event alone would give.
    Handling the same motion event twice is therefore the same as handling
    it once. *)
Theorem motion_last_wins
    (m : ObjectManager) (first second : SDL_MouseMotionEvent.t) :
  handleMouseMotion (handleMouseMotion m first) second
  = handleMouseMotion m second.
Proof.
  unfold handleMouseMotion. simpl. rewrite map_map.
  f_equal. apply map_ext. intros o. apply drag_drag.
Qed.

(** ** The generator and the colours *)

(** ** The generator and the colours *)

Lemma draws_agree_addObject (seeded : mt19937) (m : ObjectManager) (x y : Z) :
  draws_agree seeded m -> draws_agree seeded (addObject m x y).
Proof.
  intros (Ho & Hc & Hp). unfold draws_agree.
  rewrite objects_addObject, length_app. simpl length.
  split; [exact Ho|]. split; [simpl; lia|].
  rewrite map_app, Nat.add_1_r, seq_S, map_app. simpl.
  apply Permutation_app; [exact Hp|].
  unfold color_at. rewrite Ho, Hc.
  replace (S (consumed seeded + 3 * length (objects m)))
    with (consumed seeded + 3 * length (objects m) + 1)%nat by lia.
  replace (S (consumed seeded + 3 * length (objects m) + 1))
    with (consumed seeded + 3 * length (objects m) + 2)%nat by lia.
  apply Permutation_refl.
Qed.

Lemma draws_agree_same_colours (seeded : mt19937) (m m' : ObjectManager) :
  rng m' = rng m ->
  Permutation (map color (objects m')) (map color (objects m)) ->
  draws_agree seeded m -> draws_agree seeded m'.
Proof.
  intros Hr Hp (Ho & Hc & Hq). unfold draws_agree.
  assert (Hlen : length (objects m') = length (objects m)).
  { apply Permutation_length in Hp. rewrite !length_map in Hp. exact Hp. }
  rewrite Hr, Hlen. split; [exact Ho|]. split; [exact Hc|].
  eapply Permutation_trans; [exact Hp | exact Hq].
Qed.

Lemma draws_agree_event (seeded : mt19937) (app : SDLApp) (ev : SDL_Event) :
  draws_agree seeded (objectManager app) ->
  draws_agree seeded (objectManager (handleEvent app ev)).
Proof.
  intros H. destruct ev as [|b|b|mo|sym|]; simpl; try exact H.
  - destruct (Z.eq_dec (SDL_MouseButtonEvent.button b) SDL_BUTTON_LEFT)
      as [Hb|Hb].
    + destruct (handleMouseDown_primary (objectManager app) b Hb)
        as [(front & it & back & Hl & _ & _ & ->) | (_ & ->)].
      * apply (draws_agree_same_colours seeded (objectManager app));
          [reflexivity | | exact H].
        simpl objects. rewrite Hl, !map_app. simpl map.
        rewrite <- app_assoc.
        apply Permutation_app_head. symmetry. apply Permutation_cons_append.
      * apply draws_agree_addObject. exact H.
    + rewrite handleMouseDown_other by assumption. exact H.
  - apply (draws_agree_same_colours seeded (objectManager app));
      [| | exact H]; unfold handleMouseUp;
      destruct (SDL_MouseButtonEvent.button b =? SDL_BUTTON_LEFT);
      try reflexivity.
    simpl. rewrite map_map. apply Permutation_refl.
  - apply (draws_agree_same_colours seeded (objectManager app));
      [reflexivity | | exact H].
    simpl. rewrite map_map.
    erewrite map_ext; [apply Permutation_refl|].
    intros o. unfold drag. destruct (isDragging o); reflexivity.
  - destruct (sym =? SDLK_ESCAPE); exact H.
Qed.

(** X2: the colours do not depend on the events.  In every state the
    program reaches, the generator has made exactly three draws per object
    and none besides, and the colours of the objects are, up to the order of
    the vector, those of the first, second, ... object created from the
    seed: draws [3k], [3k+1], [3k+2] as red, green, blue, alpha 255. *)
Theorem colours_follow_creation_order
    (seeded : mt19937) (queue : list SDL_Event) :
  let m := objectManager (handleEvents (SDLApp_new seeded) queue) in
  outputs (rng m) = outputs seeded
  /\ consumed (rng m) = (consumed seeded + 3 * length (objects m))%nat
  /\ Permutation (map color (objects m))
                 (map (color_at seeded) (seq 0 (length (objects m)))).
Proof.
  intros m. subst m.
  assert (G : forall app,
             draws_agree seeded (objectManager app) ->
             draws_agree seeded (objectManager (handleEvents app queue))).
  { induction queue as [|ev queue IH]; intros app H; simpl; [exact H|].
    apply IH. apply draws_agree_event. exact H. }
  apply G. simpl. unfold ObjectManager_new.
  do 3 apply draws_agree_addObject.
  unfold draws_agree. simpl. repeat split; try lia. apply Permutation_refl.
Qed.

(** ** Two presses on an empty spot *)

Lemma new_object_contains_corner (px py : Z) (c : SDL_Color.t) :
  Int.in_range (px + 80) -> Int.in_range (py + 80) ->
  containsPoint (DraggableObject_new px py 80 80 c) px py = true.
Proof.
  intros Hx Hy. unfold containsPoint, DraggableObject_new, Int.add.
  cbn [rect SDL_Rect.x SDL_Rect.y SDL_Rect.w SDL_Rect.h].
  rewrite (wrap_in_range _ Hx), (wrap_in_range _ Hy).
  rewrite !andb_true_iff, !Z.geb_le, !Z.ltb_lt. lia.
Qed.

(** X3: two primary presses at the same empty spot create one object, not
    two: the first adds the 80x80 object with its corner at the point, the
    second finds the point inside it and begins to drag it, with offset
    (0, 0); the generator is drawn from once. *)
Theorem second_press_grabs_new_object (m : ObjectManager) (px py : Z) :
  Forall (fun o => containsPoint o px py = false) (objects m) ->
  Int.in_range (px + 80) -> Int.in_range (py + 80) ->
  handleMouseDown
    (handleMouseDown m (SDL_MouseButtonEvent.make SDL_BUTTON_LEFT px py))
    (SDL_MouseButtonEvent.make SDL_BUTTON_LEFT px py)
  = {| objects :=
         objects m
         ++ [ {| rect := SDL_Rect.make px py 80 80;
                 color := fst (generateRandomColor (rng m));
                 isDragging := true;
                 dragOffsetX := 0;
                 dragOffsetY := 0 |} ];
       rng := snd (generateRandomColor (rng m)) |}.
Proof.
  intros Hmiss Hx Hy.
  assert (E1 : handleMouseDown m (SDL_MouseButtonEvent.make SDL_BUTTON_LEFT px py)
               = addObject m px py).
  { unfold handleMouseDown. simpl.
    rewrite (loop_all_miss _ _ _ Hmiss). reflexivity. }
  rewrite E1. unfold handleMouseDown.
  cbn [SDL_MouseButtonEvent.button SDL_MouseButtonEvent.x SDL_MouseButtonEvent.y].
  rewrite Z.eqb_refl, objects_addObject, rev_app_distr.
  cbn [rev app handleMouseDown_loop].
  rewrite (new_object_contains_corner px py _ Hx Hy).
  rewrite rev_involutive, app_nil_r.
  unfold grab, DraggableObject_new, Int.sub.
  cbn [rect color SDL_Rect.x SDL_Rect.y].
  rewrite !Z.sub_diag. reflexivity.
Qed.

Lemma second_press_grabs_new_object_witness :
  length (objects
            (handleMouseDown
               (handleMouseDown (ObjectManager_new sample_rng)
                  (SDL_MouseButtonEvent.make SDL_BUTTON_LEFT 700 500))
               (SDL_MouseButtonEvent.make SDL_BUTTON_LEFT 700 500)))
  = 4%nat.
Proof.
  rewrite (second_press_grabs_new_object (ObjectManager_new sample_rng) 700 500).
  - reflexivity.
  - repeat constructor.
  - unfold Int.in_range, Int.min_int, Int.max_int. lia.
  - unfold Int.in_range, Int.min_int, Int.max_int. lia.
Defined.

(** ** Objects that never leave the canvas *)

Lemma inside_drag (o : DraggableObject) (mx my : Z) :
  size80 o /\ inside_canvas o ->
  size80 (drag o mx my) /\ inside_canvas (drag o mx my).
Proof.
  intros [Hs Hi]. split; [apply size80_drag; exact Hs|].
  destruct (isDragging o) eqn:Hd.
  - apply drag_inside; assumption.
  - rewrite drag_idle by exact Hd. exact Hi.
Qed.

(** X4: when every primary press lands at most 720 from the left and 520
    from the top of the window, every object, dragged or not, lies fully
    inside the 800x600 canvas in every state the program reaches. *)
Theorem objects_stay_inside (seeded : mt19937) (queue : list SDL_Event) :
  Forall in_margin queue ->
  Forall inside_canvas (registry_after seeded queue).
Proof.
  intros Hq. unfold registry_after.
  set (P := fun o => size80 o /\ inside_canvas o).
  assert (G : forall app,
             Forall P (objects (objectManager app)) ->
             Forall P (objects (objectManager (handleEvents app queue)))).
  { induction Hq as [|ev queue Hev Hq IH]; intros app H; simpl; [exact H|].
    apply IH. destruct (is_primary_press ev) eqn:Hp.
    - destruct ev as [|b|b|mo|sym|]; try discriminate. simpl in Hp, Hev |- *.
      apply Z.eqb_eq in Hp. specialize (Hev Hp).
      destruct (handleMouseDown_primary (objectManager app) b Hp)
        as [(front & it & back & Hl & _ & _ & ->) | (_ & ->)].
      + simpl. rewrite Hl in H.
        apply Forall_app in H. destruct H as [Hf Hr]. inversion Hr; subst.
        apply Forall_app; split; [apply Forall_app; split; assumption|].
        constructor; [|constructor]. assumption.
      + rewrite objects_addObject.
        apply Forall_app; split; [exact H|].
        constructor; [|constructor]. split; [apply size80_new|].
        unfold inside_canvas. simpl. exact Hev.
    - apply quiet_event_keeps; try assumption.
      + intros o Ho. exact Ho.
      + intros o mx my Ho. apply inside_drag. exact Ho. }
  eapply Forall_impl; [|apply G].
  - intros o [_ Hi]. exact Hi.
  - simpl. repeat constructor; unfold WINDOW_WIDTH, WINDOW_HEIGHT; simpl; lia.
Qed.

Lemma objects_stay_inside_witness :
  Forall inside_canvas
    (registry_after sample_rng
       [press SDL_BUTTON_LEFT 720 520; press SDL_BUTTON_LEFT 720 520;
        move 2000 2000; lift SDL_BUTTON_LEFT 0 0; press 3 790 590]).
Proof.
  apply (objects_stay_inside sample_rng).
  repeat (apply Forall_cons;
          [simpl; try exact I; intros;
           unfold SDL_BUTTON_LEFT, WINDOW_WIDTH, WINDOW_HEIGHT in *; lia|]).
  apply Forall_nil.
Defined.

(** ** A whole drag: press, motion, release *)

Lemma release_idle (o : DraggableObject) :
  isDragging o = false -> release o = o.
Proof. destruct o as [rc c d ox oy]. simpl. intros ->. reflexivity. Qed.

Lemma map_release_idle (l : list DraggableObject) :
  existsb isDragging l = false -> map release l = l.
Proof.
  induction l as [|o l IH]; simpl; intros H; [reflexivity|].
  apply orb_false_iff in H. destruct H as [Ho Hl].
  rewrite (release_idle o Ho), (IH Hl). reflexivity.
Qed.

Lemma idle_without (l : list DraggableObject) (i : nat) :
  existsb isDragging l = false ->
  existsb isDragging (firstn i l ++ skipn (S i) l) = false.
Proof.
  intros H.
  destruct (existsb isDragging (firstn i l ++ skipn (S i) l)) eqn:E;
    [|reflexivity].
  apply existsb_exists in E. destruct E as (o & Ho & Hd).
  assert (Hin : In o l).
  { apply in_app_or in Ho. destruct Ho as [Ho|Ho].
    - rewrite <- (firstn_skipn i l). apply in_or_app. left. exact Ho.
    - rewrite <- (firstn_skipn (S i) l). apply in_or_app. right. exact Ho. }
  assert (existsb isDragging l = true) by (apply existsb_exists; eauto).
  congruence.
Qed.

(** The object that was grabbed at [(px, py)], after a motion to [(qx, qy)]. *)
Lemma drag_dragged (o : DraggableObject) (px py qx qy : Z) :
  size80 o ->
  Int.in_range (SDL_Rect.x (rect o) + (qx - px)) ->
  Int.in_range (SDL_Rect.y (rect o) + (qy - py)) ->
  drag (dragged o px py) qx qy
  = {| rect := SDL_Rect.make
                 (clamp (SDL_Rect.x (rect o) + (qx - px)) 0 (WINDOW_WIDTH - 80))
                 (clamp (SDL_Rect.y (rect o) + (qy - py)) 0 (WINDOW_HEIGHT - 80))
                 80 80;
       color := color o;
       isDragging := true;
       dragOffsetX := px - SDL_Rect.x (rect o);
       dragOffsetY := py - SDL_Rect.y (rect o) |}.
Proof.
  intros [Hw Hh] Hx Hy. unfold drag, dragged, Int.sub.
  cbn [rect color isDragging dragOffsetX dragOffsetY
       SDL_Rect.x SDL_Rect.y SDL_Rect.w SDL_Rect.h].
  rewrite Hw, Hh.
  replace (qx - (px - SDL_Rect.x (rect o)))
    with (SDL_Rect.x (rect o) + (qx - px)) by lia.
  replace (qy - (py - SDL_Rect.y (rect o)))
    with (SDL_Rect.y (rect o) + (qy - py)) by lia.
  rewrite (wrap_in_range _ Hx), (wrap_in_range _ Hy).
  reflexivity.
Qed.

Lemma press_hit_objects
    (m : ObjectManager) (px py : Z) (index : nat) (o : DraggableObject) :
  Forall fits_int (objects m) ->
  hitTest (objects m) px py = Some index ->
  nth_error (objects m) index = Some o ->
  handleMouseDown m (SDL_MouseButtonEvent.make SDL_BUTTON_LEFT px py)
  = {| objects := (firstn index (objects m) ++ skipn (S index) (objects m))
                  ++ [dragged o px py];
       rng := rng m |}.
Proof.
  intros Hf Hh Hn. unfold handleMouseDown.
  cbn [SDL_MouseButtonEvent.button SDL_MouseButtonEvent.x SDL_MouseButtonEvent.y].
  rewrite Z.eqb_refl, (loop_refines _ _ _ Hf), Hh. simpl.
  unfold beginDrag. rewrite Hn. reflexivity.
Qed.

(** X5: a whole drag.  With no drag under way, a primary press at
    [(px, py)] on the 80x80 object that [hitTest] returns, a motion to
    [(qx, qy)] and a primary release leave the other objects as they were
    and in their order, and the object last in the vector, displaced by
    [(qx - px, qy - py)] and clamped to the canvas, no longer dragging. *)
Theorem drag_gesture
    (m : ObjectManager) (index : nat) (o : DraggableObject)
    (px py qx qy rx ry : Z) :
  Forall fits_int (objects m) ->
  existsb isDragging (objects m) = false ->
  hitTest (objects m) px py = Some index ->
  nth_error (objects m) index = Some o ->
  size80 o ->
  Int.in_range (SDL_Rect.x (rect o) + (qx - px)) ->
  Int.in_range (SDL_Rect.y (rect o) + (qy - py)) ->
  handleMouseUp
    (handleMouseMotion
       (handleMouseDown m (SDL_MouseButtonEvent.make SDL_BUTTON_LEFT px py))
       (SDL_MouseMotionEvent.make qx qy))
    (SDL_MouseButtonEvent.make SDL_BUTTON_LEFT rx ry)
  = {| objects :=
         (firstn index (objects m) ++ skipn (S index) (objects m))
         ++ [ {| rect := SDL_Rect.make
                           (clamp (SDL_Rect.x (rect o) + (qx - px))
                                  0 (WINDOW_WIDTH - 80))
                           (clamp (SDL_Rect.y (rect o) + (qy - py))
                                  0 (WINDOW_HEIGHT - 80))
                           80 80;
                 color := color o;
                 isDragging := false;
                 dragOffsetX := px - SDL_Rect.x (rect o);
                 dragOffsetY := py - SDL_Rect.y (rect o) |} ];
       rng := rng m |}.
Proof.
  intros Hf Hidle Hh Hn Hs Hx Hy.
  rewrite (press_hit_objects m px py index o Hf Hh Hn).
  pose proof (idle_without (objects m) index Hidle) as Hrest.
  set (rest := firstn index (objects m) ++ skipn (S index) (objects m)) in *.
  unfold handleMouseUp, handleMouseMotion.
  cbn [SDL_MouseButtonEvent.button SDL_MouseMotionEvent.x SDL_MouseMotionEvent.y
       objects rng].
  rewrite Z.eqb_refl. f_equal.
  rewrite !map_app. cbn [map].
  rewrite (map_drag_idle _ qx qy Hrest), (map_release_idle _ Hrest).
  rewrite (drag_dragged o px py qx qy Hs Hx Hy). reflexivity.
Qed.

Lemma drag_gesture_witness :
  exists c,
    objects
      (handleMouseUp
         (handleMouseMotion
            (handleMouseDown (ObjectManager_new sample_rng)
               (SDL_MouseButtonEvent.make SDL_BUTTON_LEFT 110 120))
            (SDL_MouseMotionEvent.make 790 300))
         (SDL_MouseButtonEvent.make SDL_BUTTON_LEFT 790 300))
    = skipn 1 (objects (ObjectManager_new sample_rng))
      ++ [ {| rect := SDL_Rect.make 720 280 80 80;
              color := c;
              isDragging := false;
              dragOffsetX := 10;
              dragOffsetY := 20 |} ].
Proof.
  destruct (objects_new sample_rng) as (c1 & c2 & c3 & Hobjs).
  exists c1.
  rewrite (drag_gesture (ObjectManager_new sample_rng) 0
             (DraggableObject_new 100 100 80 80 c1) 110 120 790 300 790 300).
  - reflexivity.
  - repeat constructor; unfold Int.in_range, Int.min_int, Int.max_int;
      simpl; lia.
  - reflexivity.
  - reflexivity.
  - rewrite Hobjs. reflexivity.
  - apply size80_new.
  - unfold Int.in_range, Int.min_int, Int.max_int. simpl. lia.
  - unfold Int.in_range, Int.min_int, Int.max_int. simpl. lia.
Defined.

(** ** What [render] draws *)

Lemma filled_app (t1 t2 : list SDL_Call) :
  filled (t1 ++ t2) = filled t1 ++ filled t2.
Proof.
  induction t1 as [|c t1 IH]; simpl; [reflexivity|].
  destruct c; simpl; rewrite ?IH; reflexivity.
Qed.

Lemma filled_objects (l : list DraggableObject) :
  filled (flat_map render_object l) = map rect l.
Proof.
  induction l as [|o l IH]; simpl; [reflexivity|]. rewrite IH. reflexivity.
Qed.

(** The fill calls of a frame are the rectangles of the vector, in order. *)
Lemma filled_render (app : SDLApp) :
  filled (render app) = map rect (objects (objectManager app)).
Proof.
  unfold render. rewrite !filled_app, filled_objects. simpl.
  rewrite app_nil_r. reflexivity.
Qed.

(** X6: the press takes what is painted on top.  Among the rectangles that
    [render] fills, in the order it fills them, the one a primary press at
    a point grabs is the last that contains the point; after the press the
    same rectangles are filled, that one last (over all others), the rest
    in their order. *)
Theorem press_takes_topmost_painted
    (app : SDLApp) (px py : Z) (index : nat) :
  Forall fits_int (objects (objectManager app)) ->
  hitTest (objects (objectManager app)) px py = Some index ->
  let before := filled (render app) in
  let after := filled (render (handleEvent app (press SDL_BUTTON_LEFT px py))) in
  exists r,
    nth_error before index = Some r
    /\ in_bounds r px py = true
    /\ (forall j r', (index < j)%nat -> nth_error before j = Some r' ->
                     in_bounds r' px py = false)
    /\ after = (firstn index before ++ skipn (S index) before) ++ [r].
Proof.
  intros Hf Hh before after. subst before after.
  rewrite !filled_render.
  pose proof Hh as Hh'. unfold hitTest in Hh'.
  apply hitTest_below_Some in Hh'.
  destruct Hh' as (Hi & (o & Hn & Hin) & Habove).
  exists (rect o). split; [|split; [exact Hin|split]].
  - rewrite nth_error_map, Hn. reflexivity.
  - intros j r' Hj Hr'. rewrite nth_error_map in Hr'.
    destruct (nth_error (objects (objectManager app)) j) as [o'|] eqn:Ej;
      [|discriminate].
    injection Hr' as <-. apply (Habove j); [|exact Ej].
    split; [exact Hj|]. apply nth_error_Some. congruence.
  - unfold press. simpl handleEvent. cbn [objectManager].
    rewrite (press_hit_objects _ px py index o Hf Hh Hn). cbn [objects].
    rewrite !map_app, firstn_map, skipn_map. reflexivity.
Qed.

Lemma press_takes_topmost_painted_witness :
  filled (render (handleEvent (SDLApp_new sample_rng)
                    (press SDL_BUTTON_LEFT 110 120)))
  = [SDL_Rect.make 300 200 80 80; SDL_Rect.make 500 300 80 80;
     SDL_Rect.make 100 100 80 80].
Proof.
  destruct (press_takes_topmost_painted (SDLApp_new sample_rng) 110 120 0)
    as (r & Hr & _ & _ & Hafter).
  - repeat constructor; unfold Int.in_range, Int.min_int, Int.max_int;
      simpl; lia.
  - reflexivity.
  - rewrite Hafter. injection Hr as <-. reflexivity.
Defined.

Lemma render_object_release (o : DraggableObject) :
  render_object (release o) = render_object o.
Proof. reflexivity. Qed.

Lemma render_same_objects (app app' : SDLApp) :
  objects (objectManager app') = objects (objectManager app) ->
  render app' = render app.
Proof. intros H. unfold render. rewrite H. reflexivity. Qed.

(** X7: the picture changes only on a primary press or on a motion during
    a drag: after any other event (a release, a press of another button, a
    key, a quit request, a motion while nothing is dragged) [render] makes
    exactly the calls it would have made before it. *)
Theorem picture_kept (app : SDLApp) (ev : SDL_Event) :
  changes_picture app ev = false ->
  render (handleEvent app ev) = render app.
Proof.
  intros H. destruct ev as [|b|b|mo|sym|]; simpl in H.
  - reflexivity.
  - apply render_same_objects. simpl.
    rewrite handleMouseDown_other; [reflexivity|].
    apply Z.eqb_neq. exact H.
  - unfold render. simpl. unfold handleMouseUp.
    destruct (SDL_MouseButtonEvent.button b =? SDL_BUTTON_LEFT);
      [|reflexivity].
    simpl. do 2 f_equal. rewrite flat_map_concat_map, map_map.
    rewrite <- flat_map_concat_map. reflexivity.
  - apply render_same_objects. simpl.
    apply map_drag_idle. exact H.
  - simpl. destruct (sym =? SDLK_ESCAPE); reflexivity.
  - reflexivity.
Qed.

Lemma picture_kept_witness :
  render (handleEvent
            (handleEvent (SDLApp_new sample_rng) (press SDL_BUTTON_LEFT 110 120))
            (lift SDL_BUTTON_LEFT 400 400))
  = render (handleEvent (SDLApp_new sample_rng) (press SDL_BUTTON_LEFT 110 120)).
Proof.
  apply (picture_kept
           (handleEvent (SDLApp_new sample_rng) (press SDL_BUTTON_LEFT 110 120))
           (lift SDL_BUTTON_LEFT 400 400)).
  reflexivity.
Defined.

(** ** Quit requests and the frame loop *)

Lemma running_handleEvent (app : SDLApp) (ev : SDL_Event) :
  running (handleEvent app ev) = running app && negb (stops ev).
Proof.
  destruct ev as [|b|b|mo|sym|]; simpl;
    rewrite ?andb_true_r, ?andb_false_r; try reflexivity.
  destruct (sym =? SDLK_ESCAPE); simpl;
    rewrite ?andb_true_r, ?andb_false_r; reflexivity.
Qed.

Lemma running_handleEvents (queue : list SDL_Event) (app : SDLApp) :
  running (handleEvents app queue) = running app && negb (existsb stops queue).
Proof.
  revert app. induction queue as [|ev queue IH]; intros app.
  - simpl. rewrite andb_true_r. reflexivity.
  - change (handleEvents app (ev :: queue))
      with (handleEvents (handleEvent app ev) queue).
    rewrite IH, running_handleEvent. simpl existsb.
    rewrite negb_orb, andb_assoc. reflexivity.
Qed.

Lemma objectManager_handleEvent (a b : SDLApp) (ev : SDL_Event) :
  objectManager a = objectManager b ->
  objectManager (handleEvent a ev) = objectManager (handleEvent b ev).
Proof.
  intros H. destruct ev as [|bt|bt|mo|sym|]; simpl;
    try (rewrite H; reflexivity); try exact H.
  destruct (sym =? SDLK_ESCAPE); simpl; exact H.
Qed.

Lemma objectManager_handleEvents (queue : list SDL_Event) (a b : SDLApp) :
  objectManager a = objectManager b ->
  objectManager (handleEvents a queue) = objectManager (handleEvents b queue).
Proof.
  revert a b. induction queue as [|ev queue IH]; intros a b H; simpl.
  - exact H.
  - apply IH. apply objectManager_handleEvent. exact H.
Qed.

Lemma objectManager_stop (app : SDLApp) (ev : SDL_Event) :
  stops ev = true -> objectManager (handleEvent app ev) = objectManager app.
Proof.
  destruct ev as [|b|b|mo|sym|]; simpl; intros H; try discriminate.
  - reflexivity.
  - rewrite H. reflexivity.
Qed.

(** X8: a quit request or an Escape press only lowers [running], which no
    event raises again; the rest of the queue, also what was queued behind
    it, is handled all the same: the registry after a queue is the registry
    after the queue without its quit requests and Escape presses. *)
Theorem stop_events_only_lower_running (app : SDLApp) (queue : list SDL_Event) :
  running (handleEvents app queue) = running app && negb (existsb stops queue)
  /\ objectManager (handleEvents app queue)
     = objectManager
         (handleEvents app (filter (fun ev => negb (stops ev)) queue)).
Proof.
  split; [apply running_handleEvents|].
  revert app. induction queue as [|ev queue IH]; intros app; simpl.
  - reflexivity.
  - destruct (stops ev) eqn:Hs; simpl.
    + rewrite <- IH. apply objectManager_handleEvents.
      apply objectManager_stop. exact Hs.
    + apply IH.
Qed.

Lemma run_running (frames : list (list SDL_Event)) (app : SDLApp) :
  running (run app frames)
  = running app && negb (existsb stops (concat frames)).
Proof.
  revert app. induction frames as [|q frames IH]; intros app; simpl.
  - rewrite andb_true_r. reflexivity.
  - destruct (running app) eqn:Hr.
    + rewrite IH, running_handleEvents, Hr, existsb_app, negb_orb. reflexivity.
    + rewrite Hr. reflexivity.
Qed.

Lemma run_cons (app : SDLApp) (q : list SDL_Event)
    (later : list (list SDL_Event)) :
  running app = true ->
  run app (q :: later) = run (handleEvents app q) later.
Proof. intros Hr. simpl. rewrite Hr. reflexivity. Qed.

Lemma run_calls_cons (app : SDLApp) (q : list SDL_Event)
    (later : list (list SDL_Event)) :
  running app = true ->
  run_calls app (q :: later)
  = render (handleEvents app q) ++ [SDL_Delay 16]
    ++ run_calls (handleEvents app q) later.
Proof. intros Hr. cbn [run_calls]. rewrite Hr. reflexivity. Qed.

Lemma run_calls_stopped (app : SDLApp) (frames : list (list SDL_Event)) :
  running app = false -> run_calls app frames = [].
Proof. intros Hr. destruct frames; cbn [run_calls]; rewrite ?Hr; reflexivity. Qed.

(** Frames without a quit request are all run, one after the other. *)
Lemma run_through (before rest : list (list SDL_Event)) (app : SDLApp) :
  running app = true ->
  existsb stops (concat before) = false ->
  running (handleEvents app (concat before)) = true
  /\ run app (before ++ rest) = run (handleEvents app (concat before)) rest
  /\ run_calls app (before ++ rest)
     = run_calls app before
       ++ run_calls (handleEvents app (concat before)) rest.
Proof.
  revert app. induction before as [|q before IH]; intros app Hr Hs.
  - simpl. auto.
  - cbn [concat] in Hs. rewrite existsb_app in Hs. apply orb_false_iff in Hs.
    destruct Hs as [Hq Hb].
    assert (Hr' : running (handleEvents app q) = true).
    { rewrite running_handleEvents, Hr, Hq. reflexivity. }
    destruct (IH (handleEvents app q) Hr' Hb) as (H1 & H2 & H3).
    cbn [concat]. rewrite <- app_comm_cons, handleEvents_app.
    rewrite !(run_cons app) by exact Hr.
    rewrite !(run_calls_cons app) by exact Hr.
    split; [exact H1|]. split; [exact H2|].
    rewrite H3, <- !app_assoc. reflexivity.
Qed.

Lemma run_calls_last (q : list SDL_Event) (app : SDLApp) :
  running app = true -> existsb stops q = true ->
  forall later,
    run app (q :: later) = handleEvents app q
    /\ run_calls app (q :: later) = render (handleEvents app q) ++ [SDL_Delay 16].
Proof.
  intros Hr Hq later.
  assert (Hoff : running (handleEvents app q) = false).
  { rewrite running_handleEvents, Hr, Hq. reflexivity. }
  rewrite (run_cons app) by exact Hr.
  rewrite (run_calls_cons app) by exact Hr.
  rewrite (run_calls_stopped _ later Hoff).
  split; [|reflexivity].
  destruct later; simpl; rewrite ?Hoff; reflexivity.
Qed.

(** ** [main] *)

(** Closes a goal [In c l -> G] for a call [c] that is not in the concrete
    list [l]. *)
Ltac not_in_list :=
  let H := fresh "Hin" in
  intros H; cbn [In] in H;
  repeat (destruct H as [H|H]; [discriminate H|]);
  destruct H.

Lemma construct_ok (sdl : SDL_Setup) (seeded : mt19937) :
  setup_ok sdl = true ->
  SDLApp_construct sdl seeded
  = ([SDL_Init;
      SDL_CreateWindow "Multiple Draggable Objects Demo" WINDOW_WIDTH WINDOW_HEIGHT;
      SDL_CreateRenderer],
     inr (SDLApp_new seeded)).
Proof.
  unfold setup_ok, SDLApp_construct. intros H.
  apply andb_true_iff in H. destruct H as [H Hr].
  apply andb_true_iff in H. destruct H as [Hi Hw].
  apply negb_true_iff in Hi. rewrite Hi, Hw, Hr. reflexivity.
Qed.

(** X9: [main] is still in its loop after the frames observed exactly when
    the setup succeeded and no event so far was a quit request or an Escape
    press: a failed setup and those two events are the only ways out. *)
Theorem main_running_iff
    (sdl : SDL_Setup) (seeded : mt19937) (frames : list (list SDL_Event)) :
  main sdl seeded frames = None
  <-> setup_ok sdl = true /\ existsb stops (concat frames) = false.
Proof.
  unfold main. destruct (setup_ok sdl) eqn:Hok.
  - rewrite (construct_ok sdl seeded Hok), run_running. simpl.
    destruct (existsb stops (concat frames)); simpl; split;
      try discriminate; auto.
    intros [_ H]. discriminate.
  - unfold SDLApp_construct. unfold setup_ok in Hok.
    destruct (init_result sdl <? 0); simpl in *.
    + split; [discriminate | intros [H _]; discriminate].
    + destruct (window_created sdl); simpl in *.
      * rewrite Hok. simpl. split; [discriminate | intros [H _]; discriminate].
      * split; [discriminate | intros [H _]; discriminate].
Qed.

(** X10: when the setup fails, [main] returns 1 whatever the events, after
    printing [Error: ], the step that failed, SDL's error text and a
    newline: the initialization when [SDL_Init] failed, else the window
    when none was created, else the renderer.  No frame is drawn.
    [SDL_Quit] is not called, also when [SDL_Init] had succeeded; the window
    is destroyed exactly when it had been created (the renderer was what
    failed). *)
Theorem main_setup_failure
    (sdl : SDL_Setup) (seeded : mt19937) (frames : list (list SDL_Event)) :
  setup_ok sdl = false ->
  exists e,
    main sdl seeded frames = Some e
    /\ exit_code e = 1
    /\ ~ In SDL_Quit (calls e)
    /\ ~ In SDL_RenderPresent (calls e)
    /\ (In SDL_DestroyWindow (calls e)
        <-> (init_result sdl <? 0) = false /\ window_created sdl = true)
    /\ (init_result sdl < 0 ->
        printed e
        = ("Error: SDL initialization failed: " ++ error_text sdl
           ++ newline)%string)
    /\ (0 <= init_result sdl -> window_created sdl = false ->
        printed e
        = ("Error: Window creation failed: " ++ error_text sdl
           ++ newline)%string)
    /\ (0 <= init_result sdl -> window_created sdl = true ->
        printed e
        = ("Error: Renderer creation failed: " ++ error_text sdl
           ++ newline)%string).
Proof.
  unfold setup_ok, main, SDLApp_construct. intros Hok.
  destruct (init_result sdl <? 0) eqn:Hi; simpl in Hok |- *;
    rewrite ?Z.ltb_lt, ?Z.ltb_ge in Hi.
  - eexists. split; [reflexivity|]. cbn [exit_code calls printed].
    split; [reflexivity|]. split; [not_in_list|]. split; [not_in_list|].
    split; [split; [not_in_list | intros [H _]; discriminate H]|].
    split; [reflexivity|]. split; intros; lia.
  - destruct (window_created sdl); simpl in Hok |- *.
    + rewrite Hok. simpl. eexists. split; [reflexivity|].
      cbn [exit_code calls printed].
      split; [reflexivity|]. split; [not_in_list|]. split; [not_in_list|].
      split; [split; [auto | intros _; do 3 right; left; reflexivity]|].
      split; [intros; lia|]. split; [intros _ H; discriminate H|].
      reflexivity.
    + eexists. split; [reflexivity|]. cbn [exit_code calls printed].
      split; [reflexivity|]. split; [not_in_list|]. split; [not_in_list|].
      split; [split; [not_in_list | intros [_ H]; discriminate H]|].
      split; [intros; lia|]. split; [reflexivity|].
      intros _ H. discriminate H.
Qed.

Lemma main_setup_failure_witness :
  exists e,
    main no_renderer_setup sample_rng [[press SDL_BUTTON_LEFT 1 1]; [SDL_QUIT]]
    = Some e
    /\ exit_code e = 1
    /\ ~ In SDL_Quit (calls e)
    /\ In SDL_DestroyWindow (calls e)
    /\ printed e
       = ("Error: Renderer creation failed: no driver" ++ newline)%string.
Proof.
  destruct (main_setup_failure no_renderer_setup sample_rng
              [[press SDL_BUTTON_LEFT 1 1]; [SDL_QUIT]])
    as (e & He & Hcode & Hquit & _ & Hwin & _ & _ & Hprint).
  - reflexivity.
  - exists e. repeat split; try assumption.
    + apply Hwin. split; reflexivity.
    + rewrite Hprint; [reflexivity | simpl; lia | reflexivity].
Defined.

Lemma presented_app (t1 t2 : list SDL_Call) :
  presented (t1 ++ t2) = (presented t1 + presented t2)%nat.
Proof.
  induction t1 as [|c t1 IH]; simpl; [reflexivity|].
  destruct c; simpl; rewrite ?IH; reflexivity.
Qed.

Lemma presented_render (app : SDLApp) : presented (render app) = 1%nat.
Proof.
  unfold render. rewrite !presented_app. simpl.
  induction (objects (objectManager app)) as [|o l IH]; simpl; auto.
Qed.

Lemma presented_run_calls (before : list (list SDL_Event)) (app : SDLApp) :
  running app = true ->
  existsb stops (concat before) = false ->
  presented (run_calls app before) = length before.
Proof.
  revert app. induction before as [|q before IH]; intros app Hr Hs.
  - reflexivity.
  - cbn [concat] in Hs. rewrite existsb_app in Hs. apply orb_false_iff in Hs.
    destruct Hs as [Hq Hb].
    rewrite (run_calls_cons app) by exact Hr.
    rewrite !presented_app, presented_render, IH; [simpl; lia| |exact Hb].
    rewrite running_handleEvents, Hr, Hq. reflexivity.
Qed.

(** X11: with the setup done, [main] returns 0 after the first frame whose
    queue holds a quit request or an Escape press.  That frame is still
    drawn, with every event of its queue applied, also those queued behind
    the request, and followed by the delay; later queues are never read.
    One frame is presented per queue handled.  On the way out [SDL_Quit]
    is called first and the renderer and the window are destroyed after
    it. *)
Theorem main_returns_after_stop
    (sdl : SDL_Setup) (seeded : mt19937)
    (before : list (list SDL_Event)) (q : list SDL_Event)
    (later : list (list SDL_Event)) :
  setup_ok sdl = true ->
  existsb stops (concat before) = false ->
  existsb stops q = true ->
  exists drawn,
    main sdl seeded (before ++ q :: later)
    = Some {| exit_code := 0;
              calls :=
                [SDL_Init;
                 SDL_CreateWindow "Multiple Draggable Objects Demo"
                                  WINDOW_WIDTH WINDOW_HEIGHT;
                 SDL_CreateRenderer]
                ++ drawn
                ++ [SDL_Quit; SDL_DestroyRenderer; SDL_DestroyWindow];
              printed := EmptyString |}
    /\ drawn
       = run_calls (SDLApp_new seeded) before
         ++ render (handleEvents (SDLApp_new seeded) (concat before ++ q))
         ++ [SDL_Delay 16]
    /\ presented drawn = S (length before).
Proof.
  intros Hok Hb Hq.
  assert (Hr : running (SDLApp_new seeded) = true) by reflexivity.
  destruct (run_through before (q :: later) (SDLApp_new seeded) Hr Hb)
    as (Hr' & Hrun & Hcalls).
  destruct (run_calls_last q _ Hr' Hq later) as [Hlast Hlastcalls].
  eexists. split; [|split; [reflexivity|]].
  - unfold main. rewrite (construct_ok sdl seeded Hok).
    rewrite Hrun, Hlast, Hcalls, Hlastcalls.
    rewrite running_handleEvents, Hr', Hq. cbn [andb negb].
    rewrite handleEvents_app, <- !app_assoc. reflexivity.
  - rewrite !presented_app, presented_render.
    rewrite (presented_run_calls before _ Hr Hb). simpl. lia.
Qed.

Lemma main_returns_after_stop_witness :
  option_map exit_code
    (main sample_setup sample_rng
       ([[press SDL_BUTTON_LEFT 110 120]; [move 300 300]]
        ++ [SDL_KEYDOWN SDLK_ESCAPE; lift SDL_BUTTON_LEFT 300 300]
        :: [[press SDL_BUTTON_LEFT 1 1]]))
  = Some 0.
Proof.
  destruct (main_returns_after_stop sample_setup sample_rng
              [[press SDL_BUTTON_LEFT 110 120]; [move 300 300]]
              [SDL_KEYDOWN SDLK_ESCAPE; lift SDL_BUTTON_LEFT 300 300]
              [[press SDL_BUTTON_LEFT 1 1]])
    as (drawn & Hmain & _).
  - reflexivity.
  - reflexivity.
  - reflexivity.
  - rewrite Hmain. reflexivity.
Defined.


(** * mouse_demo.c *)

Lemma mouseState_poll (l : MouseDemo.Loop) (ev : SDL_Event) :
  MouseDemo.mouseState (MouseDemo.poll l ev)
  = demo_handled ev (MouseDemo.mouseState l).
Proof.
  unfold MouseDemo.poll, demo_handled.
  destruct (MouseDemo.handleMouseEvent ev (MouseDemo.mouseState l))
    as [[r s] t].
  reflexivity.
Qed.

Ltac int_range := unfold Int.in_range, Int.min_int, Int.max_int; lia.

(** ** The rectangle stays in the window *)

Lemma demo_steady_handled (ev : SDL_Event) (s : MouseDemo.MouseState) :
  demo_in_window ev -> demo_steady s -> demo_steady (demo_handled ev s).
Proof.
  intros Hev Hs. pose proof Hs as Hs0.
  destruct s as [sx sy d [rx ry rw rh]].
  destruct Hs as (Hw & Hh & Hx & Hy & Hoff). simpl in Hw, Hh, Hx, Hy, Hoff.
  subst rw rh.
  unfold demo_handled, MouseDemo.handleMouseEvent.
  destruct ev as [|b|b|mo|sym|]; try exact Hs0;
    cbn [MouseDemo.rect MouseDemo.x MouseDemo.y MouseDemo.isDragging
         SDL_Rect.x SDL_Rect.y SDL_Rect.w SDL_Rect.h].
  - destruct (SDL_MouseButtonEvent.button b =? SDL_BUTTON_LEFT);
      [|exact Hs0].
    unfold Int.add.
    rewrite (wrap_in_range (rx + 100)) by int_range.
    rewrite (wrap_in_range (ry + 100)) by int_range.
    destruct ((SDL_MouseButtonEvent.x b >=? rx)
              && (SDL_MouseButtonEvent.x b <=? rx + 100)
              && (SDL_MouseButtonEvent.y b >=? ry)
              && (SDL_MouseButtonEvent.y b <=? ry + 100)) eqn:Hit;
      [|exact Hs0].
    rewrite !andb_true_iff, !Z.geb_le, !Z.leb_le in Hit.
    unfold Int.sub.
    rewrite (wrap_in_range (SDL_MouseButtonEvent.x b - rx)) by int_range.
    rewrite (wrap_in_range (SDL_MouseButtonEvent.y b - ry)) by int_range.
    unfold demo_steady. simpl. repeat split; auto; lia.
  - destruct (SDL_MouseButtonEvent.button b =? SDL_BUTTON_LEFT);
      [|exact Hs0].
    destruct d; [|exact Hs0].
    unfold demo_steady. simpl. repeat split; auto; try lia; discriminate.
  - destruct d; [|exact Hs0].
    destruct (Hoff eq_refl) as [Hsx Hsy].
    simpl in Hev.
    unfold MouseDemo.WINDOW_WIDTH, MouseDemo.WINDOW_HEIGHT in *.
    unfold MouseDemo.keep_high, MouseDemo.keep_low, Int.add, Int.sub.
    rewrite (wrap_in_range (SDL_MouseMotionEvent.x mo - sx)) by int_range.
    rewrite (wrap_in_range (SDL_MouseMotionEvent.y mo - sy)) by int_range.
    rewrite (wrap_in_range (800 - 100)) by int_range.
    rewrite (wrap_in_range (600 - 100)) by int_range.
    rewrite !Z.gtb_ltb.
    destruct (SDL_MouseMotionEvent.x mo - sx <? 0) eqn:Ex;
      destruct (SDL_MouseMotionEvent.y mo - sy <? 0) eqn:Ey;
      rewrite ?Z.ltb_lt, ?Z.ltb_ge in Ex, Ey.
    all: rewrite ?(wrap_in_range (0 + 100)) by int_range.
    all: rewrite ?(wrap_in_range (SDL_MouseMotionEvent.x mo - sx + 100))
           by int_range.
    all: rewrite ?(wrap_in_range (SDL_MouseMotionEvent.y mo - sy + 100))
           by int_range.
    all: repeat match goal with
           | |- context [?a <? ?b] =>
               let E := fresh "E" in
               destruct (a <? b) eqn:E;
               rewrite ?Z.ltb_lt, ?Z.ltb_ge in E
           end.
    all: unfold demo_steady; simpl; repeat split; auto; lia.
Qed.

(** X12 (mouse_demo.c): with presses and motions inside the 800x600 window,
    the rectangle is 100x100 and lies fully inside the window after every
    event, whatever the storage of [mouseState] held before
    [initMouseState]. *)
Theorem demo_rectangle_stays_in_window
    (garbage : MouseDemo.MouseState) (queue : list SDL_Event) :
  Forall demo_in_window queue ->
  let rc := MouseDemo.rect (demo_after garbage queue) in
  SDL_Rect.w rc = 100 /\ SDL_Rect.h rc = 100
  /\ 0 <= SDL_Rect.x rc /\ SDL_Rect.x rc + SDL_Rect.w rc <= MouseDemo.WINDOW_WIDTH
  /\ 0 <= SDL_Rect.y rc /\ SDL_Rect.y rc + SDL_Rect.h rc <= MouseDemo.WINDOW_HEIGHT.
Proof.
  intros Hq rc.
  assert (G : forall l,
             demo_steady (MouseDemo.mouseState l) ->
             demo_steady (MouseDemo.mouseState (fold_left MouseDemo.poll queue l))).
  { induction Hq as [|ev queue Hev Hq IH]; intros l Hl; simpl; [exact Hl|].
    apply IH. rewrite mouseState_poll.
    apply demo_steady_handled; assumption. }
  assert (Hs : demo_steady (demo_after garbage queue)).
  { apply G. unfold demo_steady. simpl.
    repeat split; try reflexivity; try discriminate; lia. }
  destruct Hs as (Hw & Hh & Hx & Hy & _). subst rc.
  rewrite Hw, Hh. unfold MouseDemo.WINDOW_WIDTH, MouseDemo.WINDOW_HEIGHT.
  repeat split; lia.
Qed.

Lemma demo_rectangle_stays_in_window_witness :
  SDL_Rect.x
    (MouseDemo.rect
       (demo_after sample_garbage
          [press SDL_BUTTON_LEFT 450 350; move 799 0; lift SDL_BUTTON_LEFT 5 5]))
  + SDL_Rect.w
      (MouseDemo.rect
         (demo_after sample_garbage
            [press SDL_BUTTON_LEFT 450 350; move 799 0; lift SDL_BUTTON_LEFT 5 5]))
  <= MouseDemo.WINDOW_WIDTH.
Proof.
  destruct (demo_rectangle_stays_in_window sample_garbage
              [press SDL_BUTTON_LEFT 450 350; move 799 0; lift SDL_BUTTON_LEFT 5 5])
    as (_ & _ & _ & H & _).
  - repeat (apply Forall_cons;
            [simpl; try exact I;
             unfold MouseDemo.WINDOW_WIDTH, MouseDemo.WINDOW_HEIGHT; lia|]).
    apply Forall_nil.
  - exact H.
Defined.

(** ** The uninitialised fields are never read *)

Lemma demo_alike_handled (ev : SDL_Event) (s1 s2 : MouseDemo.MouseState) :
  demo_alike s1 s2 ->
  demo_alike (demo_handled ev s1) (demo_handled ev s2)
  /\ snd (MouseDemo.handleMouseEvent ev s1)
     = snd (MouseDemo.handleMouseEvent ev s2).
Proof.
  destruct s1 as [x1 y1 d1 rc1], s2 as [x2 y2 d2 rc2].
  unfold demo_alike at 1. simpl. intros (Hr & Hd & Hxy). subst rc2 d2.
  assert (Same : demo_alike
                   {| MouseDemo.x := x1; MouseDemo.y := y1;
                      MouseDemo.isDragging := d1; MouseDemo.rect := rc1 |}
                   {| MouseDemo.x := x2; MouseDemo.y := y2;
                      MouseDemo.isDragging := d1; MouseDemo.rect := rc1 |})
    by (unfold demo_alike; simpl; auto).
  unfold demo_handled, MouseDemo.handleMouseEvent.
  destruct ev as [|b|b|mo|sym|]; try (split; [exact Same | reflexivity]);
    cbn [MouseDemo.rect MouseDemo.x MouseDemo.y MouseDemo.isDragging].
  - destruct (SDL_MouseButtonEvent.button b =? SDL_BUTTON_LEFT);
      [|split; [exact Same | reflexivity]].
    match goal with
    | |- context [if ?c then _ else _] => destruct c
    end; simpl; [|split; [exact Same | reflexivity]].
    split; [|reflexivity]. unfold demo_alike. simpl. auto.
  - destruct (SDL_MouseButtonEvent.button b =? SDL_BUTTON_LEFT);
      [|split; [exact Same | reflexivity]].
    destruct d1; simpl; [|split; [exact Same | reflexivity]].
    split; [|reflexivity]. unfold demo_alike. simpl.
    repeat split; auto; discriminate.
  - destruct d1; simpl; [|split; [exact Same | reflexivity]].
    destruct (Hxy eq_refl) as [-> ->].
    split; [|reflexivity]. unfold demo_alike. simpl. auto.
Qed.

Lemma demo_loops_alike_poll (ev : SDL_Event) (l1 l2 : MouseDemo.Loop) :
  demo_loops_alike l1 l2 ->
  demo_loops_alike (MouseDemo.poll l1 ev) (MouseDemo.poll l2 ev).
Proof.
  intros (Hr & Ho & Hs).
  destruct (demo_alike_handled ev _ _ Hs) as [Hs' Ht].
  unfold demo_handled in Hs'. unfold demo_loops_alike, MouseDemo.poll.
  destruct (MouseDemo.handleMouseEvent ev (MouseDemo.mouseState l1))
    as [[r1 s1] t1].
  destruct (MouseDemo.handleMouseEvent ev (MouseDemo.mouseState l2))
    as [[r2 s2] t2].
  simpl in *. subst t2. rewrite Hr, Ho. auto.
Qed.

Lemma demo_loops_alike_queue (queue : list SDL_Event) (l1 l2 : MouseDemo.Loop) :
  demo_loops_alike l1 l2 ->
  demo_loops_alike (fold_left MouseDemo.poll queue l1)
                   (fold_left MouseDemo.poll queue l2).
Proof.
  revert l1 l2. induction queue as [|ev queue IH]; intros l1 l2 H; simpl.
  - exact H.
  - apply IH. apply demo_loops_alike_poll. exact H.
Qed.

Lemma demo_loops_alike_frames
    (frames : list (list SDL_Event)) (l1 l2 : MouseDemo.Loop) :
  demo_loops_alike l1 l2 ->
  demo_loops_alike (fst (MouseDemo.frames_loop l1 frames))
                   (fst (MouseDemo.frames_loop l2 frames))
  /\ snd (MouseDemo.frames_loop l1 frames)
     = snd (MouseDemo.frames_loop l2 frames).
Proof.
  revert l1 l2. induction frames as [|q frames IH]; intros l1 l2 H; simpl.
  - auto.
  - pose proof H as (Hr & _ & _). rewrite <- Hr.
    destruct (MouseDemo.running l1); [|auto].
    pose proof (demo_loops_alike_queue q l1 l2 H) as Hq.
    destruct (IH _ _ Hq) as [Hl Hd].
    destruct (MouseDemo.frames_loop (fold_left MouseDemo.poll q l1) frames)
      as [l1' d1].
    destruct (MouseDemo.frames_loop (fold_left MouseDemo.poll q l2) frames)
      as [l2' d2].
    simpl in *. split; [exact Hl|].
    destruct Hq as (_ & _ & (Hrect & _ & _)).
    unfold MouseDemo.draw. rewrite Hrect, Hd. reflexivity.
Qed.

(** X13 (mouse_demo.c): [initMouseState] leaves [x] and [y] unwritten, and
    [main] passes it an uninitialised [MouseState]; no run of the program
    depends on what that storage held: the exit code, the calls into SDL and
    the text printed are the same for any two initial contents. *)
Theorem demo_ignores_uninitialised_storage
    (sdl : SDL_Setup) (garbage1 garbage2 : MouseDemo.MouseState)
    (frames : list (list SDL_Event)) :
  MouseDemo.main sdl garbage1 frames = MouseDemo.main sdl garbage2 frames.
Proof.
  unfold MouseDemo.main.
  destruct (init_result sdl <? 0); [reflexivity|].
  destruct (window_created sdl); [|reflexivity].
  destruct (renderer_created sdl); [|reflexivity]. simpl.
  assert (H0 : demo_loops_alike (demo_start garbage1) (demo_start garbage2)).
  { unfold demo_loops_alike, demo_alike. simpl.
    repeat split; auto; discriminate. }
  destruct (demo_loops_alike_frames frames _ _ H0) as [(Hr & Ho & _) Hd].
  unfold demo_start in *.
  destruct (MouseDemo.frames_loop _ frames) as [l1 d1].
  destruct (MouseDemo.frames_loop _ frames) as [l2 d2].
  simpl in *. rewrite Hr, Ho, Hd. reflexivity.
Qed.

(** ** The two programs side by side *)

Lemma keep_is_clamp (v size limit : Z) :
  0 <= size <= limit -> Int.in_range limit ->
  v + size <= Int.max_int ->
  MouseDemo.keep_high (MouseDemo.keep_low v) size limit
  = clamp v 0 (Int.sub limit size).
Proof.
  intros Hs Hl Hv.
  unfold MouseDemo.keep_high, MouseDemo.keep_low, clamp, Int.add, Int.sub.
  unfold Int.in_range, Int.min_int, Int.max_int in *.
  rewrite (wrap_in_range (limit - size)) by int_range.
  rewrite Z.gtb_ltb.
  destruct (v <? 0) eqn:E; rewrite ?Z.ltb_lt, ?Z.ltb_ge in E.
  - rewrite (wrap_in_range (0 + size)) by int_range.
    destruct (limit <? 0 + size) eqn:E2;
      rewrite ?Z.ltb_lt, ?Z.ltb_ge in E2; [lia | reflexivity].
  - rewrite (wrap_in_range (v + size)) by int_range.
    destruct (limit <? v + size) eqn:E2;
      destruct (limit - size <? v) eqn:E3;
      rewrite ?Z.ltb_lt, ?Z.ltb_ge in E2, E3; try reflexivity; lia.
Qed.

(** X14: the two programs clamp alike.  For an object that is being
    dragged, no larger than the window, the four [if]s of mouse_demo.c put
    the rectangle where [std::clamp] in [DraggableObject::drag] puts it, as
    long as [rect.x + rect.w] and [rect.y + rect.h] do not overflow at the
    unclamped position. *)
Theorem demo_clamps_like_drag
    (o : DraggableObject) (motion : SDL_MouseMotionEvent.t) :
  isDragging o = true ->
  0 <= SDL_Rect.w (rect o) <= WINDOW_WIDTH ->
  0 <= SDL_Rect.h (rect o) <= WINDOW_HEIGHT ->
  Int.sub (SDL_MouseMotionEvent.x motion) (dragOffsetX o) + SDL_Rect.w (rect o)
  <= Int.max_int ->
  Int.sub (SDL_MouseMotionEvent.y motion) (dragOffsetY o) + SDL_Rect.h (rect o)
  <= Int.max_int ->
  demo_state_of
    (drag o (SDL_MouseMotionEvent.x motion) (SDL_MouseMotionEvent.y motion))
  = demo_handled (SDL_MOUSEMOTION motion) (demo_state_of o).
Proof.
  intros Hd Hw Hh Hx Hy.
  unfold demo_handled, demo_state_of, drag, MouseDemo.handleMouseEvent.
  rewrite Hd.
  cbn [MouseDemo.rect MouseDemo.x MouseDemo.y MouseDemo.isDragging
       rect dragOffsetX dragOffsetY isDragging
       SDL_Rect.x SDL_Rect.y SDL_Rect.w SDL_Rect.h fst snd].
  change MouseDemo.WINDOW_WIDTH with WINDOW_WIDTH.
  change MouseDemo.WINDOW_HEIGHT with WINDOW_HEIGHT.
  rewrite keep_is_clamp; [|exact Hw|unfold WINDOW_WIDTH; int_range|exact Hx].
  rewrite keep_is_clamp; [|exact Hh|unfold WINDOW_HEIGHT; int_range|exact Hy].
  reflexivity.
Qed.

Lemma demo_clamps_like_drag_witness :
  demo_state_of (drag (grab (DraggableObject_new 100 100 80 80
                               (SDL_Color.make 1 2 3 255)) 110 120) 900 (-5))
  = demo_handled (move 900 (-5))
      (demo_state_of (grab (DraggableObject_new 100 100 80 80
                              (SDL_Color.make 1 2 3 255)) 110 120)).
Proof.
  apply (demo_clamps_like_drag
           (grab (DraggableObject_new 100 100 80 80 (SDL_Color.make 1 2 3 255))
                 110 120)
           (SDL_MouseMotionEvent.make 900 (-5))).
  - reflexivity.
  - simpl. unfold WINDOW_WIDTH. lia.
  - simpl. unfold WINDOW_HEIGHT. lia.
  - vm_compute. discriminate.
  - vm_compute. discriminate.
Defined.

(** X15: the hit tests differ on the right and bottom edges.  Whatever
    [containsPoint] accepts, the test of mouse_demo.c accepts; the corner
    [(x + w, y + h)] of a rectangle begins a drag in mouse_demo.c, with the
    offset [(w, h)], and is outside the rectangle for [containsPoint]. *)
Theorem demo_hit_test_includes_far_edges
    (o : DraggableObject) (px py : Z) :
  fits_int o ->
  isDragging o = false ->
  (containsPoint o px py = true ->
   MouseDemo.isDragging
     (demo_handled (press SDL_BUTTON_LEFT px py) (demo_state_of o)) = true)
  /\ (0 <= SDL_Rect.w (rect o) -> 0 <= SDL_Rect.h (rect o) ->
      let cx := SDL_Rect.x (rect o) + SDL_Rect.w (rect o) in
      let cy := SDL_Rect.y (rect o) + SDL_Rect.h (rect o) in
      containsPoint o cx cy = false
      /\ demo_handled (press SDL_BUTTON_LEFT cx cy) (demo_state_of o)
         = {| MouseDemo.x := SDL_Rect.w (rect o);
              MouseDemo.y := SDL_Rect.h (rect o);
              MouseDemo.isDragging := true;
              MouseDemo.rect := rect o |}).
Proof.
  intros Hf Hidle. pose proof Hf as (Hx & Hy & Hw & Hh & Hxw & Hyh).
  split.
  - intros Hc. rewrite (containsPoint_in_bounds _ _ _ Hf) in Hc.
    apply in_bounds_iff in Hc.
    unfold demo_handled, demo_state_of, press. simpl.
    unfold Int.add. rewrite (wrap_in_range _ Hxw), (wrap_in_range _ Hyh).
    replace ((px >=? SDL_Rect.x (rect o))
             && (px <=? SDL_Rect.x (rect o) + SDL_Rect.w (rect o))
             && (py >=? SDL_Rect.y (rect o))
             && (py <=? SDL_Rect.y (rect o) + SDL_Rect.h (rect o)))
      with true; [reflexivity|].
    symmetry. rewrite !andb_true_iff, !Z.geb_le, !Z.leb_le. lia.
  - intros Hw0 Hh0 cx cy. split.
    + rewrite (containsPoint_in_bounds _ _ _ Hf).
      destruct (in_bounds (rect o) cx cy) eqn:E; [|reflexivity].
      apply in_bounds_iff in E. subst cx cy. lia.
    + unfold demo_handled, demo_state_of, press. simpl.
      unfold Int.add. rewrite (wrap_in_range _ Hxw), (wrap_in_range _ Hyh).
      fold cx cy.
      replace ((cx >=? SDL_Rect.x (rect o)) && (cx <=? cx)
               && (cy >=? SDL_Rect.y (rect o)) && (cy <=? cy))
        with true.
      * simpl. unfold Int.sub. subst cx cy.
        replace (SDL_Rect.x (rect o) + SDL_Rect.w (rect o) - SDL_Rect.x (rect o))
          with (SDL_Rect.w (rect o)) by lia.
        replace (SDL_Rect.y (rect o) + SDL_Rect.h (rect o) - SDL_Rect.y (rect o))
          with (SDL_Rect.h (rect o)) by lia.
        rewrite (wrap_in_range _ Hw), (wrap_in_range _ Hh). reflexivity.
      * symmetry. rewrite !andb_true_iff, !Z.geb_le, !Z.leb_le.
        subst cx cy. lia.
Qed.

Lemma demo_hit_test_includes_far_edges_witness :
  containsPoint (DraggableObject_new 350 250 100 100 (SDL_Color.make 0 0 255 255))
                450 350 = false
  /\ MouseDemo.isDragging
       (demo_handled (press SDL_BUTTON_LEFT 450 350)
          (demo_state_of
             (DraggableObject_new 350 250 100 100 (SDL_Color.make 0 0 255 255))))
     = true.
Proof.
  destruct (demo_hit_test_includes_far_edges
              (DraggableObject_new 350 250 100 100 (SDL_Color.make 0 0 255 255))
              0 0) as [_ H].
  - repeat split; simpl; unfold Int.min_int, Int.max_int; lia.
  - reflexivity.
  - simpl in H. destruct H as [Hc Hs]; try lia.
    split; [exact Hc|]. rewrite Hs. reflexivity.
Defined.

(** ** [main] of mouse_demo.c *)

Lemma demo_running_poll (l : MouseDemo.Loop) (ev : SDL_Event) :
  MouseDemo.running (MouseDemo.poll l ev)
  = MouseDemo.running l && negb (demo_stops ev).
Proof.
  unfold MouseDemo.poll.
  destruct (MouseDemo.handleMouseEvent ev (MouseDemo.mouseState l))
    as [[r s] t].
  destruct ev; simpl; rewrite ?andb_true_r, ?andb_false_r; reflexivity.
Qed.

Lemma demo_running_queue (queue : list SDL_Event) (l : MouseDemo.Loop) :
  MouseDemo.running (fold_left MouseDemo.poll queue l)
  = MouseDemo.running l && negb (existsb demo_stops queue).
Proof.
  revert l. induction queue as [|ev queue IH]; intros l.
  - simpl. rewrite andb_true_r. reflexivity.
  - cbn [fold_left existsb]. rewrite IH, demo_running_poll.
    rewrite negb_orb, andb_assoc. reflexivity.
Qed.

Lemma demo_running_frames (frames : list (list SDL_Event)) (l : MouseDemo.Loop) :
  MouseDemo.running (fst (MouseDemo.frames_loop l frames))
  = MouseDemo.running l && negb (existsb demo_stops (concat frames)).
Proof.
  revert l. induction frames as [|q frames IH]; intros l; simpl.
  - rewrite andb_true_r. reflexivity.
  - destruct (MouseDemo.running l) eqn:Hr.
    + specialize (IH (fold_left MouseDemo.poll q l)).
      destruct (MouseDemo.frames_loop (fold_left MouseDemo.poll q l) frames)
        as [l' d].
      simpl in *. rewrite IH, demo_running_queue, Hr, existsb_app, negb_orb.
      reflexivity.
    + simpl. exact Hr.
Qed.

Lemma demo_drawn_no_release (frames : list (list SDL_Event)) (l : MouseDemo.Loop) :
  existsb is_release (snd (MouseDemo.frames_loop l frames)) = false.
Proof.
  revert l. induction frames as [|q frames IH]; intros l; simpl.
  - reflexivity.
  - destruct (MouseDemo.running l); [|reflexivity].
    specialize (IH (fold_left MouseDemo.poll q l)).
    destruct (MouseDemo.frames_loop (fold_left MouseDemo.poll q l) frames)
      as [l' d].
    simpl in *. exact IH.
Qed.

(** X16 (mouse_demo.c): [main] is still in its loop after the frames
    observed exactly when the setup succeeded and no event so far was a quit
    request.  A key press, Escape included, does not end this program. *)
Theorem demo_main_running_iff
    (sdl : SDL_Setup) (garbage : MouseDemo.MouseState)
    (frames : list (list SDL_Event)) :
  MouseDemo.main sdl garbage frames = None
  <-> setup_ok sdl = true /\ existsb demo_stops (concat frames) = false.
Proof.
  unfold MouseDemo.main, setup_ok.
  destruct (init_result sdl <? 0); simpl;
    [split; [discriminate | intros [H _]; discriminate]|].
  destruct (window_created sdl); simpl;
    [|split; [discriminate | intros [H _]; discriminate]].
  destruct (renderer_created sdl); simpl;
    [|split; [discriminate | intros [H _]; discriminate]].
  pose proof (demo_running_frames frames (demo_start garbage)) as Hr.
  unfold demo_start in Hr.
  destruct (MouseDemo.frames_loop _ frames) as [l d].
  simpl in Hr. rewrite Hr.
  destruct (existsb demo_stops (concat frames)); simpl; split;
    try discriminate; auto.
  intros [_ H]. discriminate.
Qed.

(** X17 (mouse_demo.c): whenever [main] returns, what the setup had obtained
    is given back, last obtained first, as the last calls before the
    return, and nothing is given back earlier: [SDL_Quit] after a
    successful [SDL_Init], before it [SDL_DestroyWindow] for a window,
    before that [SDL_DestroyRenderer] for a renderer.  The exit code is 0
    when the setup succeeded and 1 when it failed. *)
Theorem demo_main_releases_in_reverse
    (sdl : SDL_Setup) (garbage : MouseDemo.MouseState)
    (frames : list (list SDL_Event)) (e : Exit) :
  MouseDemo.main sdl garbage frames = Some e ->
  (exists before,
      calls e = before ++ releases_due sdl
      /\ existsb is_release before = false)
  /\ exit_code e = (if setup_ok sdl then 0 else 1).
Proof.
  unfold MouseDemo.main, setup_ok, releases_due.
  destruct (init_result sdl <? 0); simpl.
  - intros H. injection H as <-. simpl. split; [|reflexivity].
    exists [SDL_Init]. split; reflexivity.
  - destruct (window_created sdl); simpl.
    + destruct (renderer_created sdl); simpl.
      * pose proof (demo_drawn_no_release frames (demo_start garbage)) as Hd.
        unfold demo_start in Hd.
        destruct (MouseDemo.frames_loop _ frames) as [l d].
        simpl in Hd.
        destruct (MouseDemo.running l); [discriminate|].
        intros H. injection H as <-. simpl. split; [|reflexivity].
        eexists (_ :: _ :: _ :: d). split; [reflexivity|].
        simpl. exact Hd.
      * intros H. injection H as <-. simpl. split; [|reflexivity].
        eexists [_; _; _]. split; reflexivity.
    + intros H. injection H as <-. simpl. split; [|reflexivity].
      eexists [_; _]. split; reflexivity.
Qed.

Lemma demo_main_releases_in_reverse_witness :
  exists e before,
    MouseDemo.main no_renderer_setup sample_garbage [[SDL_QUIT]] = Some e
    /\ calls e = before ++ [SDL_DestroyWindow; SDL_Quit]
    /\ exit_code e = 1.
Proof.
  eexists.
  destruct (demo_main_releases_in_reverse no_renderer_setup sample_garbage
              [[SDL_QUIT]] _ eq_refl) as [(before & Hc & _) Hcode].
  exists before. split; [reflexivity|]. split; [exact Hc | exact Hcode].
Defined.


(** * The registry between and during drags *)

Lemma idle_event_keeps_registry (app : SDLApp) (ev : SDL_Event) :
  is_primary_press ev = false ->
  existsb isDragging (objects (objectManager app)) = false ->
  objectManager (handleEvent app ev) = objectManager app.
Proof.
  intros Hq Hidle. destruct ev as [|b|b|mo|sym|]; simpl in *; try reflexivity.
  - apply handleMouseDown_other. apply Z.eqb_neq. exact Hq.
  - unfold handleMouseUp.
    destruct (SDL_MouseButtonEvent.button b =? SDL_BUTTON_LEFT);
      [|reflexivity].
    rewrite (map_release_idle _ Hidle). destruct (objectManager app).
    reflexivity.
  - unfold handleMouseMotion.
    rewrite (map_drag_idle _ _ _ Hidle). destruct (objectManager app).
    reflexivity.
  - destruct (sym =? SDLK_ESCAPE); reflexivity.
Qed.

Lemma existsb_isDragging_release (l : list DraggableObject) :
  existsb isDragging (map release l) = false.
Proof. induction l as [|o l IH]; simpl; auto. Qed.

(** X18: from a primary release until the next primary press the registry
    is at rest: whatever motions, other buttons, keys and further releases
    arrive, the objects, their order, flags and offsets, and the generator
    stay exactly as the release left them. *)
Theorem registry_rests_after_release
    (app : SDLApp) (x y : Z) (queue : list SDL_Event) :
  existsb is_primary_press queue = false ->
  objectManager
    (handleEvents (handleEvent app (lift SDL_BUTTON_LEFT x y)) queue)
  = objectManager (handleEvent app (lift SDL_BUTTON_LEFT x y)).
Proof.
  intros Hq.
  assert (Hidle : existsb isDragging
                    (objects (objectManager
                                (handleEvent app (lift SDL_BUTTON_LEFT x y))))
                  = false) by apply existsb_isDragging_release.
  revert Hq Hidle.
  generalize (handleEvent app (lift SDL_BUTTON_LEFT x y)) as a.
  induction queue as [|ev queue IH]; intros a Hq Hidle.
  - reflexivity.
  - simpl in Hq. apply orb_false_iff in Hq. destruct Hq as [Hev Hq].
    pose proof (idle_event_keeps_registry a ev Hev Hidle) as Hsame.
    change (handleEvents a (ev :: queue))
      with (handleEvents (handleEvent a ev) queue).
    rewrite IH; [exact Hsame | exact Hq | rewrite Hsame; exact Hidle].
Qed.

Lemma registry_rests_after_release_witness :
  objectManager
    (handleEvents
       (handleEvent
          (handleEvents (SDLApp_new sample_rng)
             [press SDL_BUTTON_LEFT 110 120; move 300 300])
          (lift SDL_BUTTON_LEFT 300 300))
       [move 10 10; press 3 310 310; lift SDL_BUTTON_LEFT 0 0; SDL_KEYDOWN 97])
  = objectManager
      (handleEvent
         (handleEvents (SDLApp_new sample_rng)
            [press SDL_BUTTON_LEFT 110 120; move 300 300])
         (lift SDL_BUTTON_LEFT 300 300)).
Proof.
  apply (registry_rests_after_release
           (handleEvents (SDLApp_new sample_rng)
              [press SDL_BUTTON_LEFT 110 120; move 300 300])
           300 300
           [move 10 10; press 3 310 310; lift SDL_BUTTON_LEFT 0 0;
            SDL_KEYDOWN 97]).
  reflexivity.
Defined.

(** X19: a dragged object stays under the cursor.  After a primary press
    at [(px, py)] inside an 80x80 object and a motion to [(qx, qy)] that the
    canvas does not cut short, the object contains [(qx, qy)], at the same
    offset from its corner at which it was grabbed. *)
Theorem dragged_object_stays_under_cursor
    (o : DraggableObject) (px py qx qy : Z) :
  size80 o -> fits_int o ->
  containsPoint o px py = true ->
  0 <= SDL_Rect.x (rect o) + (qx - px) <= WINDOW_WIDTH - 80 ->
  0 <= SDL_Rect.y (rect o) + (qy - py) <= WINDOW_HEIGHT - 80 ->
  let moved := drag (grab o px py) qx qy in
  containsPoint moved qx qy = true
  /\ qx - SDL_Rect.x (rect moved) = px - SDL_Rect.x (rect o)
  /\ qy - SDL_Rect.y (rect moved) = py - SDL_Rect.y (rect o).
Proof.
  intros Hs Hf Hc Hx Hy moved. subst moved.
  rewrite (grab_dragged o px py Hf Hc).
  unfold WINDOW_WIDTH, WINDOW_HEIGHT in Hx, Hy.
  rewrite (drag_dragged o px py qx qy Hs) by int_range.
  rewrite (containsPoint_in_bounds _ _ _ Hf) in Hc.
  apply in_bounds_iff in Hc. destruct Hs as [Hw Hh]. rewrite Hw, Hh in Hc.
  unfold containsPoint, clamp, Int.add, WINDOW_WIDTH, WINDOW_HEIGHT.
  cbn [rect SDL_Rect.x SDL_Rect.y SDL_Rect.w SDL_Rect.h].
  replace (SDL_Rect.x (rect o) + (qx - px) <? 0) with false
    by (symmetry; apply Z.ltb_ge; lia).
  replace (SDL_Rect.y (rect o) + (qy - py) <? 0) with false
    by (symmetry; apply Z.ltb_ge; lia).
  replace (800 - 80 <? SDL_Rect.x (rect o) + (qx - px)) with false
    by (symmetry; apply Z.ltb_ge; lia).
  replace (600 - 80 <? SDL_Rect.y (rect o) + (qy - py)) with false
    by (symmetry; apply Z.ltb_ge; lia).
  rewrite (wrap_in_range (SDL_Rect.x (rect o) + (qx - px) + 80)) by int_range.
  rewrite (wrap_in_range (SDL_Rect.y (rect o) + (qy - py) + 80)) by int_range.
  split; [|lia].
  rewrite !andb_true_iff, !Z.geb_le, !Z.ltb_lt. lia.
Qed.

Lemma dragged_object_stays_under_cursor_witness :
  containsPoint
    (drag (grab (DraggableObject_new 100 100 80 80 (SDL_Color.make 1 2 3 255))
                110 120)
          400 300)
    400 300
  = true.
Proof.
  apply (dragged_object_stays_under_cursor
           (DraggableObject_new 100 100 80 80 (SDL_Color.make 1 2 3 255))
           110 120 400 300).
  - apply size80_new.
  - repeat split; simpl; unfold Int.min_int, Int.max_int; lia.
  - reflexivity.
  - simpl. unfold WINDOW_WIDTH. lia.
  - simpl. unfold WINDOW_HEIGHT. lia.
Defined.
